(** * VibeSurf orchestration engine: a shallow embedding

    The development follows [vibe_surf/agents/vibe_surf_agent.py]:
    the pydantic result models, the session state, the control-aware
    node wrapper (the gate), the three workflow nodes with their
    routers, the single and parallel dispatchers, and the control
    operations and status report of [VibeSurfAgent]; and, of
    [vibe_surf/tools/vibesurf_tools.py], the execution of an action and
    the removal of the MCP tools.

    Conventions.
    - A Python call that may raise is a [PyResult]: [Ok v] or
      [Raise e] where [e] is the text [str(e)] of an [Exception].
    - External collaborators (the planner, the workers, the browser
      manager, the report writer) are scripted: what they return or
      raise is an input of the embedded function.
    - The state record has the fields that the dataclass declares. The
      node functions also read attributes of the state object that the
      dataclass does not declare ([state.activity_logs],
      [state.task_id], [state.tools], ...); these are the optional
      [undeclared] part of the record, absent on every state that the
      constructor builds, and reading an absent attribute raises
      [AttributeError].
    - The field [action_params] is only ever written and is left out;
      the back reference [state.vibesurf_agent] is the agent object
      [self] that the embedded functions take next to the state, as
      [run] sets it.
    - The state object is shared: the controller writes the flags of
      the object that the nodes read, and what a function has written
      to the state stays written when the function raises.
    - [datetime.now()] defaults, logger calls, the control lock and the
      timeouts of [stop] are left out. *)

From stdpp Require Import gmap strings list fin_maps pretty.

Open Scope string_scope.
Open Scope list_scope.
Open Scope stdpp_scope.

(** ** Exceptions *)

Inductive PyResult (A : Type) : Type :=
| Ok (a : A)
| Raise (e : string).
Arguments Ok {A} a.
Arguments Raise {A} e.

Global Instance PyResult_bind : MBind PyResult := λ A B k m,
  match m with
  | Ok a => k a
  | Raise e => Raise e
  end.

Definition raised {A} (m : PyResult A) : bool :=
  match m with Ok _ => false | Raise _ => true end.

(** ** Pydantic models (lines 43-78)

    Constructing a [BaseModel] validates every field against its
    annotation; a value outside the annotation raises a
    [ValidationError], whose text is kept here as the model and the
    field it names. *)

Definition validation_error (model field : string) : string :=
  "1 validation error for " +:+ model +:+ ": " +:+ field.

(** [Literal["running", "paused", "stopped", "idle", "error"]], the
    annotation of [AgentStatus.status] and of
    [VibeSurfStatus.overall_status]. *)
Definition status_literal : list string :=
  ["running"; "paused"; "stopped"; "idle"; "error"].

Definition check_literal (model field v : string) : PyResult string :=
  if bool_decide (v ∈ status_literal) then Ok v
  else Raise (validation_error model field).

(** A task descriptor, by the three shapes the dispatchers test with
    [isinstance]: a list [[target_id, description]], a dict with the
    optional keys ['description'] and ['tab_id'], or anything else,
    which the code turns into text with [str(task)] (here: a [str]). *)
Inductive TaskDescriptor : Type :=
| TList (target_id : option string) (description : string)
| TDict (description : option string) (tab_id : option string)
| TStr (text : string).

(** The annotation [task: str] of [BrowserTaskResult]: only a [str]
    passes. *)
Definition check_str (model field : string) (v : TaskDescriptor) : PyResult string :=
  match v with
  | TStr s => Ok s
  | _ => Raise (validation_error model field)
  end.

Module BrowserTaskResult.
Record t : Type := mk {
    agent_id : string;
    task : string;
    success : bool;
    result : option string;
    error : option string
}.
End BrowserTaskResult.

(** [BrowserTaskResult(agent_id=..., task=..., success=..., result=...,
    error=...)] with [task] given as a descriptor, as at lines 589, 599,
    682 and 709. *)
Definition BrowserTaskResult_new (agent_id : string) (task : TaskDescriptor)
    (success : bool) (result error : option string) : PyResult BrowserTaskResult.t :=
  t ← check_str "BrowserTaskResult" "task" task;
  Ok (BrowserTaskResult.mk agent_id t success result error).

Module ControlResult.
Record t : Type := mk {
    success : bool;
    message : string;
    details : list (string * string)
}.
End ControlResult.

Module AgentStatus.
Record t : Type := mk {
    agent_id : string;
    status : string;
    current_action : option string;
    error_message : option string;
    pause_reason : option string
}.
End AgentStatus.

Definition AgentStatus_new (agent_id status : string)
    (current_action error_message pause_reason : option string) : PyResult AgentStatus.t :=
  st ← check_literal "AgentStatus" "status" status;
  Ok (AgentStatus.mk agent_id st current_action error_message pause_reason).

(** Values of the [progress] dictionary. *)
Inductive ProgressValue : Type :=
| PStr (s : string)
| PBool (b : bool)
| PInt (n : nat).

Module VibeSurfStatus.
Record t : Type := mk {
    overall_status : string;
    agent_statuses : gmap string AgentStatus.t;
    progress : list (string * ProgressValue);
    active_step : option string
}.
End VibeSurfStatus.

Definition VibeSurfStatus_new (overall_status : string)
    (agent_statuses : gmap string AgentStatus.t)
    (progress : list (string * ProgressValue))
    (active_step : option string) : PyResult VibeSurfStatus.t :=
  o ← check_literal "VibeSurfStatus" "overall_status" overall_status;
  Ok (VibeSurfStatus.mk o agent_statuses progress active_step).


(** ** Session state (lines 81-113) *)

Record ActivityEntry : Type := {
  agent_name : string;
  agent_status : string;
  agent_msg : string
}.

Inductive Message : Type :=
| SystemMessage (content : string)
| UserMessage (content : string)
| AssistantMessage (content : string).

(** Attributes outside the dataclass.

    The node functions and the dispatchers read eight attributes of the
    state object that [VibeSurfState] does not declare: the data
    [task_id], [message_history] and [activity_logs], and the
    collaborators [tools], [llm], [browser_manager], [task_dir] and
    [file_system]. [run] (line 1324) passes none of them to the
    constructor and no statement of the module assigns one, so a state
    as the program builds it has none of them. The class has no
    [__slots__]: an instance holds such an attribute only when a caller
    has assigned it. [Attributes] is the data of a state object on which
    that has been done; the collaborators, which are scripted, go with
    it: the eight are present together or not at all. *)
Record Attributes : Type := mkAttributes {
  task_id : string;
  message_history : list Message;
  activity_logs : list ActivityEntry
}.

Record VibeSurfState : Type := mkState {
  original_task : string;
  upload_files : list string;
  session_id : string;
  current_step : string;
  is_complete : bool;
  current_action : option string;
  browser_tasks : list TaskDescriptor;
  browser_results : list BrowserTaskResult.t;
  generated_report_path : option string;
  final_response : option string;
  paused : bool;
  stopped : bool;
  should_pause : bool;
  should_stop : bool;
  (* what the instance holds beside the declared fields *)
  undeclared : option Attributes
}.

(** [VibeSurfState(original_task=task, upload_files=upload_files or [],
    session_id=session_id, vibesurf_agent=self)], line 1324, with the
    dataclass defaults. *)
Definition initial_state (task : string) (files : list string) (sid : string) : VibeSurfState :=
  {| original_task := task; upload_files := files; session_id := sid;
     current_step := "vibesurf_agent"; is_complete := false;
     current_action := None; browser_tasks := []; browser_results := [];
     generated_report_path := None; final_response := None;
     paused := false; stopped := false; should_pause := false; should_stop := false;
     undeclared := None |}.

(** Field assignments [state.f = v]. *)
Definition set_current_step (v : string) (s : VibeSurfState) : VibeSurfState :=
  mkState (original_task s) (upload_files s) (session_id s) v (is_complete s)
    (current_action s) (browser_tasks s) (browser_results s) (generated_report_path s)
    (final_response s) (paused s) (stopped s) (should_pause s) (should_stop s)
    (undeclared s).

Definition set_is_complete (v : bool) (s : VibeSurfState) : VibeSurfState :=
  mkState (original_task s) (upload_files s) (session_id s) (current_step s) v
    (current_action s) (browser_tasks s) (browser_results s) (generated_report_path s)
    (final_response s) (paused s) (stopped s) (should_pause s) (should_stop s)
    (undeclared s).

Definition set_current_action (v : option string) (s : VibeSurfState) : VibeSurfState :=
  mkState (original_task s) (upload_files s) (session_id s) (current_step s) (is_complete s)
    v (browser_tasks s) (browser_results s) (generated_report_path s)
    (final_response s) (paused s) (stopped s) (should_pause s) (should_stop s)
    (undeclared s).

Definition set_browser_tasks (v : list TaskDescriptor) (s : VibeSurfState) : VibeSurfState :=
  mkState (original_task s) (upload_files s) (session_id s) (current_step s) (is_complete s)
    (current_action s) v (browser_results s) (generated_report_path s)
    (final_response s) (paused s) (stopped s) (should_pause s) (should_stop s)
    (undeclared s).

Definition set_browser_results (v : list BrowserTaskResult.t) (s : VibeSurfState) : VibeSurfState :=
  mkState (original_task s) (upload_files s) (session_id s) (current_step s) (is_complete s)
    (current_action s) (browser_tasks s) v (generated_report_path s)
    (final_response s) (paused s) (stopped s) (should_pause s) (should_stop s)
    (undeclared s).

Definition set_generated_report_path (v : option string) (s : VibeSurfState) : VibeSurfState :=
  mkState (original_task s) (upload_files s) (session_id s) (current_step s) (is_complete s)
    (current_action s) (browser_tasks s) (browser_results s) v
    (final_response s) (paused s) (stopped s) (should_pause s) (should_stop s)
    (undeclared s).

Definition set_final_response (v : option string) (s : VibeSurfState) : VibeSurfState :=
  mkState (original_task s) (upload_files s) (session_id s) (current_step s) (is_complete s)
    (current_action s) (browser_tasks s) (browser_results s) (generated_report_path s)
    v (paused s) (stopped s) (should_pause s) (should_stop s)
    (undeclared s).

Definition set_paused (v : bool) (s : VibeSurfState) : VibeSurfState :=
  mkState (original_task s) (upload_files s) (session_id s) (current_step s) (is_complete s)
    (current_action s) (browser_tasks s) (browser_results s) (generated_report_path s)
    (final_response s) v (stopped s) (should_pause s) (should_stop s)
    (undeclared s).

Definition set_stopped (v : bool) (s : VibeSurfState) : VibeSurfState :=
  mkState (original_task s) (upload_files s) (session_id s) (current_step s) (is_complete s)
    (current_action s) (browser_tasks s) (browser_results s) (generated_report_path s)
    (final_response s) (paused s) v (should_pause s) (should_stop s)
    (undeclared s).

Definition set_should_pause (v : bool) (s : VibeSurfState) : VibeSurfState :=
  mkState (original_task s) (upload_files s) (session_id s) (current_step s) (is_complete s)
    (current_action s) (browser_tasks s) (browser_results s) (generated_report_path s)
    (final_response s) (paused s) (stopped s) v (should_stop s)
    (undeclared s).

Definition set_should_stop (v : bool) (s : VibeSurfState) : VibeSurfState :=
  mkState (original_task s) (upload_files s) (session_id s) (current_step s) (is_complete s)
    (current_action s) (browser_tasks s) (browser_results s) (generated_report_path s)
    (final_response s) (paused s) (stopped s) (should_pause s) v
    (undeclared s).

(** What the instance holds beside the declared fields, replaced as a
    whole: an update of one of the attributes, or a caller's assignment
    of them. *)
Definition set_undeclared (v : option Attributes) (s : VibeSurfState) : VibeSurfState :=
  mkState (original_task s) (upload_files s) (session_id s) (current_step s) (is_complete s)
    (current_action s) (browser_tasks s) (browser_results s) (generated_report_path s)
    (final_response s) (paused s) (stopped s) (should_pause s) (should_stop s)
    v.

(** The text of the [AttributeError] that reading [state.name] raises
    when the instance has no such attribute. *)
Definition attribute_error (name : string) : string :=
  "'VibeSurfState' object has no attribute '" +:+ name +:+ "'".

(** [state.name] for an attribute that the dataclass does not declare. *)
Definition getattr {A} (name : string) (read : Attributes → A) (state : VibeSurfState)
    : PyResult A :=
  match undeclared state with
  | Some a => Ok (read a)
  | None => Raise (attribute_error name)
  end.

(** Reading one of the collaborators. *)
Definition collaborator (name : string) (state : VibeSurfState) : PyResult unit :=
  getattr name (λ _, ()) state.

(** [log_agent_activity] (lines 129-137): [state.activity_logs.append(activity_entry)]. *)
Definition log_agent_activity (name status msg : string) (state : VibeSurfState)
    : PyResult VibeSurfState :=
  match undeclared state with
  | Some a =>
      Ok (set_undeclared
            (Some (mkAttributes (task_id a) (message_history a)
                     (activity_logs a
                        ++ [{| agent_name := name; agent_status := status; agent_msg := msg |}])))
            state)
  | None => Raise (attribute_error "activity_logs")
  end.

(** [state.message_history.append(m)]. *)
Definition push_message (m : Message) (state : VibeSurfState) : PyResult VibeSurfState :=
  match undeclared state with
  | Some a =>
      Ok (set_undeclared
            (Some (mkAttributes (task_id a) (message_history a ++ [m]) (activity_logs a)))
            state)
  | None => Raise (attribute_error "message_history")
  end.

(** A block of statements run on the state: the state as the block has
    left it, and the exception in flight, if any. [exec] runs one more
    statement; a block that an exception is leaving runs nothing more. *)
Definition Block : Type := VibeSurfState * option string.

Definition exec (b : Block) (stmt : VibeSurfState → PyResult VibeSurfState) : Block :=
  match b with
  | (state, None) =>
      match stmt state with
      | Ok state' => (state', None)
      | Raise e => (state, Some e)
      end
  | (state, Some e) => (state, Some e)
  end.

(** ** Workers and the agent object *)

(** What a finished worker run hands back ([history]). *)
Record AgentHistory : Type := {
  is_successful : bool;
  final_result : option string;
  has_errors : bool;
  errors : string          (* str(history.errors()) *)
}.

(** Modelled from the spec: the worker capability
    ([vibe_surf.agents.browser_use_agent.BrowserUseAgent], not among
    the sources): given a task it eventually produces a result or an
    error, and it exposes optional [pause()], [resume()] and [stop()]
    hooks. A hook is [None] when the attribute is absent, and otherwise
    what calling it does. [state_view] is what [get_status] can see of
    [agent.state.last_result]: absent, its truth value, or a raise.
    [steps] are the messages its step callback logs while it runs. *)
Record BrowserUseAgent : Type := {
  pause_hook : option (PyResult unit);
  resume_hook : option (PyResult unit);
  stop_hook : option (PyResult unit);
  state_view : option (PyResult bool);
  steps : list string;
  run : PyResult AgentHistory
}.

(** Modelled from the spec: the resource provider
    ([vibe_surf.browser.browser_manager.BrowserManager], not among the
    sources): [register_agent] acquires a resource handle for a worker
    id and [unregister_agent] releases it; either can fail, and a
    release that fails leaves the handle held. The manager is the set
    of worker ids that hold a handle; [outcome] is what the call does
    for this worker. *)
Definition unregister_agent (outcome : PyResult unit) (agent_id : string) (held : gset string)
    : PyResult (gset string) :=
  _ ← outcome; Ok (held ∖ {[agent_id]}).

Record VibeSurfAgent : Type := mkAgent {
  _current_state : option VibeSurfState;
  _running_agents : gmap string BrowserUseAgent;
  agent_message_history : list Message;   (* self.message_history *)
  browser_manager : gset string
}.

(** ** Status report (lines 1130-1207) *)

Definition overall_status_of (cs : option VibeSurfState) : string :=
  match cs with
  | None => "idle"
  | Some s =>
      if stopped s then "stopped"
      else if paused s || should_pause s then "paused"
      else if is_complete s then "completed"
      else "running"
  end.

Definition worker_status_of (cs : option VibeSurfState) : string :=
  match cs with
  | Some s => if stopped s then "stopped" else if paused s then "paused" else "running"
  | None => "running"
  end.

Definition worker_action_of (agent : BrowserUseAgent) : option string :=
  match state_view agent with
  | None => None
  | Some (Ok true) => Some "Last action completed"
  | Some (Ok false) => Some "Executing task"
  | Some (Raise _) => Some "Unknown"
  end.

(** The loop over [self._running_agents.items()]. *)
Fixpoint build_agent_statuses (cs : option VibeSurfState)
    (items : list (string * BrowserUseAgent))
    (acc : gmap string AgentStatus.t) : PyResult (gmap string AgentStatus.t) :=
  match items with
  | [] => Ok acc
  | (agent_id, agent) :: rest =>
      st ← AgentStatus_new agent_id (worker_status_of cs) (worker_action_of agent) None None;
      build_agent_statuses cs rest (<[agent_id := st]> acc)
  end.

Definition progress_of (cs : option VibeSurfState) : list (string * ProgressValue) :=
  match cs with
  | None => []
  | Some s =>
      [("current_step", PStr (current_step s));
       ("is_complete", PBool (is_complete s));
       ("browser_tasks_count", PInt (length (browser_tasks s)));
       ("browser_results_count", PInt (length (browser_results s)))]
  end.

(** The body of the [try]. *)
Definition get_status_try (self : VibeSurfAgent) : PyResult VibeSurfStatus.t :=
  let overall_status := overall_status_of (_current_state self) in
  agent_statuses ← build_agent_statuses (_current_state self)
                     (map_to_list (_running_agents self)) ∅;
  VibeSurfStatus_new overall_status agent_statuses
    (progress_of (_current_state self))
    (current_step <$> _current_state self).

(** [try: ... except Exception as e: return VibeSurfStatus("error", ...)]. *)
Definition get_status (self : VibeSurfAgent) : PyResult VibeSurfStatus.t :=
  match get_status_try self with
  | Ok st => Ok st
  | Raise e => VibeSurfStatus_new "error" ∅ [("error", PStr e)] None
  end.

(** ** The gate: [control_aware_node] (lines 192-236)

    The run loop and the controller share the state object. While the
    gate is suspended in [asyncio.sleep(0.5)] the controller may run
    [stop()], [pause()] or [resume()]; each has the effect below on the
    flags. A [Sleep] is one poll: the operations that land while the
    gate is suspended, and whether the sleep returns or is cancelled
    (the [CancelledError] of a cancelled run task then leaves the gate). *)

Inductive ControlOp : Type := CtlStop | CtlPause | CtlResume.

(** Lines 926-928. *)
Definition stop_state (s : VibeSurfState) : VibeSurfState :=
  set_stopped true (set_should_stop true s).

(** Lines 986-987. *)
Definition pause_state (s : VibeSurfState) : VibeSurfState :=
  set_should_pause true s.

(** Lines 1026-1028. *)
Definition resume_state (s : VibeSurfState) : VibeSurfState :=
  set_should_pause false (set_paused false s).

Definition apply_ctl (s : VibeSurfState) (op : ControlOp) : VibeSurfState :=
  match op with
  | CtlStop => stop_state s
  | CtlPause => pause_state s
  | CtlResume => resume_state s
  end.

Inductive Sleep : Type :=
| Wake (ops : list ControlOp)
| Cancel (ops : list ControlOp).

Definition during (ops : list ControlOp) (s : VibeSurfState) : VibeSurfState :=
  foldl apply_ctl s ops.

(** How the gate ends; [polls] counts the sleeps it went through.
    [Waiting] is a gate still in its pause loop when the schedule of
    sleeps is used up. *)
Inductive GateResult (R : Type) : Type :=
| Skipped (state : VibeSurfState)
| StoppedWhilePaused (state : VibeSurfState) (polls : nat)
| StoppedBeforeNode (state : VibeSurfState) (polls : nat)
| Executed (r : R) (polls : nat)
| Cancelled (state : VibeSurfState) (polls : nat)
| Waiting (state : VibeSurfState) (polls : nat).
Arguments Skipped {R} state.
Arguments StoppedWhilePaused {R} state polls.
Arguments StoppedBeforeNode {R} state polls.
Arguments Executed {R} r polls.
Arguments Cancelled {R} state polls.
Arguments Waiting {R} state polls.

Inductive PauseExit : Type :=
| LoopDone (state : VibeSurfState) (polls : nat)
| LoopStopped (state : VibeSurfState) (polls : nat)
| LoopCancelled (state : VibeSurfState) (polls : nat)
| LoopWaiting (state : VibeSurfState) (polls : nat).

(** Lines 203-206. *)
Definition enter_pause (state : VibeSurfState) : VibeSurfState :=
  if negb (paused state) && should_pause state
  then set_should_pause false (set_paused true state)
  else state.

(** The [while state.paused or state.should_pause] loop, lines 202-218. *)
Fixpoint pause_loop (schedule : list Sleep) (polls : nat) (state : VibeSurfState) : PauseExit :=
  if paused state || should_pause state then
    let state := enter_pause state in
    match schedule with
    | [] => LoopWaiting state polls
    | Cancel ops :: _ => LoopCancelled (during ops state) (S polls)
    | Wake ops :: rest =>
        let state := during ops state in
        if stopped state || should_stop state
        then LoopStopped (set_should_stop false (set_stopped true state)) (S polls)
        else pause_loop rest (S polls) state
    end
  else LoopDone state polls.

Definition control_aware_node {R} (node_func : VibeSurfState → R)
    (state : VibeSurfState) (schedule : list Sleep) : GateResult R :=
  if stopped state then Skipped state
  else
    match pause_loop schedule 0 state with
    | LoopStopped state polls => StoppedWhilePaused state polls
    | LoopCancelled state polls => Cancelled state polls
    | LoopWaiting state polls => Waiting state polls
    | LoopDone state polls =>
        if should_stop state
        then StoppedBeforeNode (set_should_stop false (set_stopped true state)) polls
        else Executed (node_func state) polls
    end.

(** ** Control operations (lines 908-1128, 1209-1240) *)

(** [reason or default]. *)
Definition reason_or (reason : option string) (default : string) : string :=
  match reason with
  | Some r => if bool_decide (r = "") then default else r
  | None => default
  end.

Definition with_current_state (f : VibeSurfState → VibeSurfState) (self : VibeSurfAgent) : VibeSurfAgent :=
  mkAgent (f <$> _current_state self) (_running_agents self)
    (agent_message_history self) (browser_manager self).

Definition append_history (m : Message) (self : VibeSurfAgent) : VibeSurfAgent :=
  mkAgent (_current_state self) (_running_agents self)
    (agent_message_history self ++ [m]) (browser_manager self).

(** [stop], [pause] and [resume] also walk the registry and call each
    worker's hook ([_stop_all_agents], [_pause_all_agents],
    [_resume_all_agents]); every call sits under its own
    [try/except Exception] that only logs, so the walk changes neither
    the flags nor the registry and cannot fail the operation. The
    timeouts of [stop] and the cancellation of the run task are outside
    this model. *)
Definition stop (self : VibeSurfAgent) (reason : option string) : VibeSurfAgent * ControlResult.t :=
  let reason := reason_or reason "Manual stop requested" in
  let self := append_history (UserMessage ("🛑 Stopping agent execution: " +:+ reason)) self in
  let self := with_current_state stop_state self in
  (self, ControlResult.mk true ("VibeSurf stopped successfully: " +:+ reason) [("reason", reason)]).

Definition pause (self : VibeSurfAgent) (reason : option string) : VibeSurfAgent * ControlResult.t :=
  let reason := reason_or reason "Manual pause requested" in
  let self := append_history (UserMessage ("⏸️ Pausing agent execution: " +:+ reason)) self in
  let self := with_current_state pause_state self in
  (self, ControlResult.mk true ("VibeSurf paused successfully: " +:+ reason) [("reason", reason)]).

Definition resume (self : VibeSurfAgent) (reason : option string) : VibeSurfAgent * ControlResult.t :=
  let reason := reason_or reason "Manual resume requested" in
  let self := append_history (UserMessage ("▶️ Resuming agent execution: " +:+ reason)) self in
  let self := with_current_state resume_state self in
  (self, ControlResult.mk true ("VibeSurf resumed successfully: " +:+ reason) [("reason", reason)]).

(** The [try] body of [pause_agent] and [resume_agent]: look the worker
    up, call its hook when it has one. *)
Definition call_agent_hook (hook : BrowserUseAgent → option (PyResult unit))
    (self : VibeSurfAgent) (agent_id : string) : PyResult unit :=
  match _running_agents self !! agent_id with
  | Some agent =>
      match hook agent with
      | Some call => call
      | None => Ok ()
      end
  | None => Ok ()                 (* logger.warning: not found *)
  end.

Definition pause_agent (self : VibeSurfAgent) (agent_id : string) (reason : option string)
    : ControlResult.t :=
  let reason := reason_or reason ("Manual pause requested for agent " +:+ agent_id) in
  match call_agent_hook pause_hook self agent_id with
  | Ok _ =>
      ControlResult.mk true ("Agent " +:+ agent_id +:+ " paused successfully: " +:+ reason)
        [("agent_id", agent_id); ("reason", reason)]
  | Raise e =>
      ControlResult.mk false ("Failed to pause agent " +:+ agent_id +:+ ": " +:+ e)
        [("agent_id", agent_id); ("error", e)]
  end.

Definition resume_agent (self : VibeSurfAgent) (agent_id : string) (reason : option string)
    : ControlResult.t :=
  let reason := reason_or reason ("Manual resume requested for agent " +:+ agent_id) in
  match call_agent_hook resume_hook self agent_id with
  | Ok _ =>
      ControlResult.mk true ("Agent " +:+ agent_id +:+ " resumed successfully: " +:+ reason)
        [("agent_id", agent_id); ("reason", reason)]
  | Raise e =>
      ControlResult.mk false ("Failed to resume agent " +:+ agent_id +:+ ": " +:+ e)
        [("agent_id", agent_id); ("error", e)]
  end.


(** ** Text helpers *)

Definition nl : string := String (Ascii.ascii_of_nat 10) EmptyString.

(** ["\n".join(lines)]. *)
Fixpoint join (sep : string) (lines : list string) : string :=
  match lines with
  | [] => ""
  | [x] => x
  | x :: rest => x +:+ sep +:+ join sep rest
  end.

(** [s[-4:]]. *)
Definition last4 (s : string) : string :=
  String.substring (String.length s - 4) 4 s.

(** Truthiness of an [Optional[str]]: [None] and [""] are false. *)
Definition truthy (o : option string) : option string :=
  match o with
  | Some s => if bool_decide (s = "") then None else Some s
  | None => None
  end.

(** [format_browser_results] (lines 116-126). *)
Definition format_browser_results (browser_results : list BrowserTaskResult.t) : string :=
  join nl
    (flat_map (λ r,
       [(if BrowserTaskResult.success r then "✅ Success" else "❌ Failed")
          +:+ ": " +:+ BrowserTaskResult.task r]
       ++ match truthy (BrowserTaskResult.result r) with
          | Some x => ["  Result: " +:+ x +:+ "..."]
          | None => []
          end
       ++ match truthy (BrowserTaskResult.error r) with
          | Some x => ["  Error: " +:+ x]
          | None => []
          end) browser_results).


(** ** The planning node (lines 255-381) *)

Module ActionResult.
Record t : Type := mk {
    extracted_content : option string;
    error : option string
}.
End ActionResult.

(** One action of the planner's output, by the name the node reads off
    it. A regular action carries what the tool layer does with it:
    [todo] is the read of [todo.md] and [act] the outcome of
    [state.tools.act]. *)
Inductive Action : Type :=
| execute_browser_use_agent_tasks (tasks : option (list TaskDescriptor))
| execute_report_writer_agent
| task_done (response : option string) (suggestion_follow_tasks : list string)
| regular_action (action_name : string) (todo : PyResult string) (act : PyResult ActionResult.t).

Record PlannerOutput : Type := {
  thinking : option string;
  action : list Action;
  completion : string
}.

(** What the collaborators of one planning step do, once the state has
    them: the browser context read before the [try] (it may raise), and
    the planner's answer. *)
Record PlanningScript : Type := {
  browser_context : PyResult (string * string);   (* browser_tabs_md, active_tab_md *)
  ainvoke : PyResult PlannerOutput
}.

(** A node ends by returning the state or by raising; either way the
    mutations made so far stay in the shared state. *)
Record NodeResult : Type := mkNode {
  node_self : VibeSurfAgent;
  node_state : VibeSurfState;
  node_raised : option string
}.

Definition context_info (tabs_md active_md : string) (state : VibeSurfState) : list string :=
  (if bool_decide (tabs_md = "") then [] else ["Available Browser Tabs:" +:+ nl +:+ tabs_md])
  ++ (if bool_decide (active_md = "") then [] else ["Current Active Browser Tab:" +:+ nl +:+ active_md])
  ++ match browser_results state with
     | [] => []
     | _ => ["Previous Browser Results:" +:+ nl +:+ format_browser_results (browser_results state)]
     end
  ++ match truthy (generated_report_path state) with
     | Some p => ["Generated Report Path: " +:+ p]
     | None => []
     end.

(** [for j, task in enumerate(follow_tasks[:3], 1)]. *)
Fixpoint follow_up_lines (j : nat) (follow_tasks : list string) : string :=
  match follow_tasks with
  | [] => ""
  | t :: rest => pretty j +:+ ". " +:+ t +:+ nl +:+ follow_up_lines (S j) rest
  end.

Definition todo_actions : list string := ["generate_todos"; "read_todos"; "modify_todos"].

(** Lines 349-355: [try: read todo.md, log it; except Exception: pass]. *)
Definition log_todo (todo : PyResult string) (state : VibeSurfState) : VibeSurfState :=
  match (_ ← collaborator "file_system" state;
         todo_content ← todo;
         log_agent_activity "vibesurf_agent" "working" todo_content state) with
  | Ok state' => state'
  | Raise _ => state
  end.

(** Lines 365-371: what the node records of an action's result. *)
Definition record_result (result : ActionResult.t) (state : VibeSurfState) : Block :=
  let b := (state, None) in
  let b :=
    match truthy (ActionResult.extracted_content result) with
    | Some c =>
        exec (exec b (push_message (UserMessage ("Action result:" +:+ nl +:+ c))))
          (log_agent_activity "vibesurf_agent" "result" c)
    | None => b
    end in
  match truthy (ActionResult.error result) with
  | Some e =>
      exec (exec b (push_message (UserMessage ("Action error:" +:+ nl +:+ e))))
        (log_agent_activity "vibesurf_agent" "error" e)
  | None => b
  end.

(** The [for i, action in enumerate(actions)] loop, lines 303-374. The
    exception in flight, if any, is on its way to the [except] of line
    376. *)
Fixpoint process_actions (actions : list Action) (state : VibeSurfState) : Block :=
  match actions with
  | [] => (state, None)
  | execute_browser_use_agent_tasks tasks :: _ =>
      let state := set_browser_tasks (default [] tasks) state in
      let state := set_current_action (Some "execute_browser_use_agent_tasks") state in
      let state := set_current_step "browser_task_execution" state in
      exec (state, None)
        (log_agent_activity "vibesurf_agent" "result"
           ("Routing to browser task execution with "
              +:+ pretty (length (browser_tasks state)) +:+ " tasks"))
  | execute_report_writer_agent :: _ =>
      let state := set_current_action (Some "execute_report_writer_agent") state in
      let state := set_current_step "report_task_execution" state in
      exec (state, None)
        (log_agent_activity "vibesurf_agent" "result" "Routing to report generation")
  | task_done response follow_tasks :: _ =>
      let response_content := default "Task completed" response in
      let final_response :=
        match follow_tasks with
        | [] => response_content
        | _ => response_content +:+ nl +:+ nl +:+ "## Suggested Follow-up Tasks:" +:+ nl
                 +:+ follow_up_lines 1 (take 3 follow_tasks)
        end in
      let state := set_final_response (Some final_response) state in
      let state := set_is_complete true state in
      exec (state, None) (log_agent_activity "vibesurf_agent" "result" final_response)
  | regular_action action_name todo act :: rest =>
      let state :=
        if bool_decide (action_name ∈ todo_actions) then log_todo todo state else state in
      match collaborator "tools" state ≫= (λ _, act) with
      | Raise e => (state, Some e)
      | Ok result =>
          match record_result result state with
          | (state, None) => process_actions rest state
          | (state, Some e) => (state, Some e)
          end
      end
  end.

(** The [except Exception as e] of lines 376-381: it returns the state,
    unless its own log call raises. *)
Definition planning_failed (e : string) (state : VibeSurfState) : Block :=
  let state := set_final_response (Some ("Task execution failed: " +:+ e)) state in
  let state := set_is_complete true state in
  exec (state, None) (log_agent_activity "vibesurf_agent" "error" ("Agent failed: " +:+ e)).

(** The body of the [try], lines 289-374. *)
Definition planning_try (script : PlanningScript) (state : VibeSurfState) : Block :=
  match collaborator "llm" state ≫= (λ _, ainvoke script) with
  | Raise e => (state, Some e)
  | Ok parsed =>
      let b := exec (state, None) (push_message (AssistantMessage (completion parsed))) in
      let b :=
        match truthy (thinking parsed) with
        | Some t => exec b (log_agent_activity "vibesurf_agent" "thinking" t)
        | None => b
        end in
      match b with
      | (state, None) => process_actions (action parsed) state
      | (state, Some e) => (state, Some e)
      end
  end.

(** Lines 260-287 come before the [try]: an exception there leaves the
    node. Line 260 reads [state.tools]. *)
Definition _vibesurf_agent_node_impl (script : PlanningScript)
    (self : VibeSurfAgent) (state : VibeSurfState) : NodeResult :=
  match collaborator "tools" state ≫= (λ _, browser_context script) with
  | Raise e => mkNode self state (Some e)
  | Ok (browser_tabs_md, active_tab_md) =>
      let info := context_info browser_tabs_md active_tab_md state in
      match match info with
            | [] => Ok state
            | _ => push_message (UserMessage (join (nl +:+ nl) info)) state
            end with
      | Raise e => mkNode self state (Some e)
      | Ok state =>
          match planning_try script state with
          | (state, None) => mkNode self state None
          | (state, Some e) =>
              let '(state, exn) := planning_failed e state in
              mkNode self state exn
          end
      end
  end.

(** ** Routers (lines 719-748) *)

Definition route_after_vibesurf_agent (state : VibeSurfState) : string :=
  if bool_decide (current_step state = "browser_task_execution") then "browser_task_execution"
  else if bool_decide (current_step state = "report_task_execution") then "report_task_execution"
  else if bool_decide (current_step state = "vibesurf_agent") then "vibesurf_agent"
  else if is_complete state then "END"
  else "END".

Definition route_after_browser_task_execution (state : VibeSurfState) : string :=
  "vibesurf_agent".

Definition route_after_report_task_execution (state : VibeSurfState) : string :=
  "vibesurf_agent".

Definition should_continue (state : VibeSurfState) : string :=
  if is_complete state then "END" else "continue".


(** ** Worker dispatch (lines 493-716) *)

(** The browser session a worker is constructed with: the shared main
    session, or the one registered for its own worker id. *)
Inductive BrowserSession : Type :=
| main_browser_session
| agent_browser_session (agent_id : string).

(** What the collaborators do for the task at one index, once the state
    has them: [focus] is the tab lookup of the single path (lines
    634-646), [register] and [release] are
    [browser_manager.register_agent] and [.unregister_agent] of the
    parallel path, [create] is building the task text and constructing
    the [BrowserUseAgent] (lines 548-567 and 654-672); with uploaded
    files the task text calls [format_upload_files_list], a name the
    module does not define, and [create] raises the [NameError]. *)
Record WorkerScript : Type := {
  focus : PyResult unit;
  register : PyResult unit;
  create : PyResult BrowserUseAgent;
  release : PyResult unit
}.

(** The two dispatchers. *)
Inductive DispatchPath : Type := single_mode | parallel_mode.

(** What a dispatcher leaves behind: the agent object, the state, which
    of the two dispatchers ran, the workers it constructed (by tracking
    id) with the session each was bound to, the worker ids whose turn of
    the cleanup ([finally], lines 618-625 and 699-703) ran to its end,
    and the returned results or the exception. *)
Record Dispatch : Type := mkDispatch {
  d_self : VibeSurfAgent;
  d_state : VibeSurfState;
  d_path : DispatchPath;
  d_bound : list (string * BrowserSession);
  d_cleaned : list string;
  d_result : PyResult (list BrowserTaskResult.t)
}.

(** [repr] of a [str] without quotes or escapes in it, and [str] of a
    two-element list. *)
Definition py_repr (o : option string) : string :=
  match o with
  | Some s => "'" +:+ s +:+ "'"
  | None => "None"
  end.

Definition py_str (o : option string) : string := default "None" o.

(** The description read off a descriptor, lines 519-526 and 634-645. *)
Definition task_description (task : TaskDescriptor) : string :=
  match task with
  | TList _ description => description
  | TDict description _ => default "Unknown task" description
  | TStr text => text
  end.

Definition is_list (task : TaskDescriptor) : bool :=
  match task with TList _ _ => true | _ => false end.

(** [state.vibesurf_agent._running_agents[agent_id] = agent] and
    [..._running_agents.pop(agent_id, None)]; the guard on
    [state.vibesurf_agent] holds in a run. *)
Definition track (agent_id : string) (agent : BrowserUseAgent) (self : VibeSurfAgent) : VibeSurfAgent :=
  mkAgent (_current_state self) (<[agent_id := agent]> (_running_agents self))
    (agent_message_history self) (browser_manager self).

Definition untrack (agent_id : string) (self : VibeSurfAgent) : VibeSurfAgent :=
  mkAgent (_current_state self) (delete agent_id (_running_agents self))
    (agent_message_history self) (browser_manager self).

Definition with_browser_manager (held : gset string) (self : VibeSurfAgent) : VibeSurfAgent :=
  mkAgent (_current_state self) (_running_agents self) (agent_message_history self) held.

(** The step callback (lines 140-188) logs one "working" entry per
    step of the worker. It runs inside the worker: an exception of its
    log call is raised there, and what the worker makes of it is part
    of its scripted [run]. *)
Definition log_steps (name : string) (agent : BrowserUseAgent) (state : VibeSurfState) : VibeSurfState :=
  foldl (λ st msg, match log_agent_activity name "working" msg st with
                   | Ok st' => st'
                   | Raise _ => st
                   end) state (steps agent).

(** The result built from a finished history, lines 599-605 and 682-688. *)
Definition result_of_history (agent_id : string) (task : TaskDescriptor) (history : AgentHistory)
    : PyResult BrowserTaskResult.t :=
  BrowserTaskResult_new agent_id task (is_successful history) (final_result history)
    (Some (if has_errors history && negb (is_successful history) then errors history else "")).

(** *** Single mode (lines 628-716) *)

Definition single_agent_id (task_id : string) (i : nat) : string :=
  "agent-single-" +:+ last4 task_id +:+ "-" +:+ pretty i.

Definition single_name (task_id : string) : string :=
  "browser_use_agent-" +:+ last4 task_id.

(** The inner [try ... finally] around [agent.run()], lines 679-703,
    without the [finally]. *)
Definition run_single (task_id agent_id : string) (task : TaskDescriptor) (agent : BrowserUseAgent)
    (state : VibeSurfState) : VibeSurfState * PyResult BrowserTaskResult.t :=
  let state := log_steps (single_name task_id) agent state in
  match run agent ≫= result_of_history agent_id task with
  | Raise e => (state, Raise e)
  | Ok result =>
      match (if BrowserTaskResult.success result
             then log_agent_activity (single_name task_id) "result"
                    ("Task completed successfully: " +:+ nl +:+ py_str (BrowserTaskResult.result result))
                    state
             else log_agent_activity (single_name task_id) "error"
                    ("Task failed: " +:+ py_str (BrowserTaskResult.error result)) state) with
      | Ok state => (state, Ok result)
      | Raise e => (state, Raise e)
      end
  end.

(** What one turn of the loop leaves: as for a dispatcher, with the
    result of the one task. *)
Record Turn : Type := mkTurn {
  t_self : VibeSurfAgent;
  t_state : VibeSurfState;
  t_bound : list (string * BrowserSession);
  t_cleaned : list string;
  t_result : PyResult BrowserTaskResult.t
}.

(** The [try] of line 653 with its [except] of lines 705-714; an
    exception of the [except] block itself leaves the dispatcher. *)
Definition single_attempt (script : WorkerScript) (task_id agent_id : string) (task : TaskDescriptor)
    (self : VibeSurfAgent) (state : VibeSurfState) : Turn :=
  let tried :=
    match create script with
    | Raise e => mkTurn self state [] [] (Raise e)
    | Ok agent =>
        let self := track agent_id agent self in
        let '(state, attempt) := run_single task_id agent_id task agent state in
        mkTurn (untrack agent_id self) state [(agent_id, main_browser_session)] [agent_id] attempt
    end in
  match t_result tried with
  | Ok result => tried
  | Raise e =>
      match log_agent_activity (single_name task_id) "error" ("Task execution failed: " +:+ e)
              (t_state tried) with
      | Raise e' => mkTurn (t_self tried) (t_state tried) (t_bound tried) (t_cleaned tried) (Raise e')
      | Ok state =>
          mkTurn (t_self tried) state (t_bound tried) (t_cleaned tried)
            (BrowserTaskResult_new agent_id task false None (Some e))
      end
  end.

(** One turn of the loop after the tab lookup: lines 649-714. The reads
    of [state.task_id] and the log call of line 652 come before the
    [try]. *)
Definition single_turn (script : WorkerScript) (i : nat) (task : TaskDescriptor)
    (self : VibeSurfAgent) (state : VibeSurfState) : Turn :=
  match getattr "task_id" task_id state with
  | Raise e => mkTurn self state [] [] (Raise e)
  | Ok tid =>
      match log_agent_activity (single_name tid) "working" (task_description task) state with
      | Raise e => mkTurn self state [] [] (Raise e)
      | Ok state => single_attempt script tid (single_agent_id tid i) task self state
      end
  end.

(** The loop of lines 633-714. The tab lookup reads
    [state.browser_manager]; it and the turn's first lines are outside
    the [try]. *)
Fixpoint single_loop (script : nat → WorkerScript) (i : nat) (tasks : list TaskDescriptor)
    (results : list BrowserTaskResult.t) (bound : list (string * BrowserSession))
    (cleaned : list string) (self : VibeSurfAgent) (state : VibeSurfState) : Dispatch :=
  match tasks with
  | [] => mkDispatch self state single_mode bound cleaned (Ok results)
  | task :: rest =>
      match collaborator "browser_manager" state ≫= (λ _, focus (script i)) with
      | Raise e => mkDispatch self state single_mode bound cleaned (Raise e)
      | Ok _ =>
          let t := single_turn (script i) i task self state in
          match t_result t with
          | Ok result =>
              single_loop script (S i) rest (results ++ [result]) (bound ++ t_bound t)
                (cleaned ++ t_cleaned t) (t_self t) (t_state t)
          | Raise e =>
              mkDispatch (t_self t) (t_state t) single_mode (bound ++ t_bound t)
                (cleaned ++ t_cleaned t) (Raise e)
          end
      end
  end.

Definition execute_single_browser_tasks (script : nat → WorkerScript)
    (self : VibeSurfAgent) (state : VibeSurfState) : Dispatch :=
  single_loop script 0 (browser_tasks state) [] [] [] self state.

(** *** Parallel mode (lines 508-625) *)

Definition parallel_agent_id (task_id : string) (i : nat) : string :=
  "agent-" +:+ pretty (i + 1) +:+ "-" +:+ last4 task_id.

Definition parallel_name (task_id : string) (i : nat) : string :=
  "browser_use_agent-" +:+ pretty (i + 1) +:+ "-" +:+ last4 task_id.

(** [bu_agent_ids], lines 517-530. *)
Definition bu_agent_ids (task_id : string) (pending_tasks : list TaskDescriptor) : list string :=
  imap (λ i _, parallel_agent_id task_id i) pending_tasks.

(** The [asyncio.gather] over [register_sessions], line 531: every
    registration is started; those that succeed hold a handle from then
    on; the gather raises the exception of a registration that failed
    (here the first in task order). [n] is the number of tasks. *)
Definition registered_ids (script : nat → WorkerScript) (task_id : string) (n : nat) : list string :=
  omap (λ i, match register (script i) with
             | Ok _ => Some (parallel_agent_id task_id i)
             | Raise _ => None
             end) (seq 0 n).

Definition registration_error (script : nat → WorkerScript) (n : nat) : option string :=
  list_find (λ r, raised r = true) (register ∘ script <$> seq 0 n)
    ≫= (λ '(_, r), match r with Raise e => Some e | Ok _ => None end).

(** What the creation loop leaves: the workers, each with the index of
    the task it was created for, and the exception that left the loop,
    if any. *)
Record Created : Type := mkCreated {
  c_agents : list (nat * BrowserUseAgent);
  c_self : VibeSurfAgent;
  c_state : VibeSurfState;
  c_raised : option string
}.

(** The creation loop, lines 533-578: each turn is a [try] whose
    [except] logs the failure; an exception of that log call leaves the
    loop, and with it the dispatcher. *)
Fixpoint create_agents (script : nat → WorkerScript) (task_id : string) (i : nat)
    (tasks : list TaskDescriptor) (agents : list (nat * BrowserUseAgent))
    (self : VibeSurfAgent) (state : VibeSurfState) : Created :=
  match tasks with
  | [] => mkCreated agents self state None
  | task :: rest =>
      let '(state, attempt) :=
        match log_agent_activity (parallel_name task_id i) "working" (task_description task) state with
        | Raise e => (state, Raise e)
        | Ok state => (state, create (script i))
        end in
      match attempt with
      | Ok agent =>
          create_agents script task_id (S i) rest (agents ++ [(i, agent)])
            (track (parallel_agent_id task_id i) agent self) state
      | Raise e =>
          match log_agent_activity (parallel_name task_id i) "error"
                  ("Failed to create agent: " +:+ e) state with
          | Ok state => create_agents script task_id (S i) rest agents self state
          | Raise e' => mkCreated agents self state (Some e')
          end
      end
  end.

(** The [asyncio.gather] over every [agent.run()] with
    [return_exceptions=True], line 582: the workers run concurrently;
    [order] is the order in which they complete (positions in
    [agents]), and each worker's step entries reach the log in that
    order. The outcomes come back in the order of [agents]. *)
Definition gather_runs (task_id : string) (order : list nat) (agents : list (nat * BrowserUseAgent))
    (state : VibeSurfState) : VibeSurfState * list (PyResult AgentHistory) :=
  (foldl (λ st k, match agents !! k with
                  | Some (i, agent) => log_steps (parallel_name task_id i) agent st
                  | None => st
                  end) state order,
   (run ∘ snd) <$> agents).

(** One turn of the result loop, lines 587-614: [i] is the position in
    [zip(agents, histories)]. The result is built before the log call. *)
Definition parallel_result (task_id : string) (pending_tasks : list TaskDescriptor) (i : nat)
    (history : PyResult AgentHistory) (state : VibeSurfState)
    : VibeSurfState * PyResult BrowserTaskResult.t :=
  let agent_id := "agent-" +:+ pretty (i + 1) in
  match pending_tasks !! i with
  | None => (state, Raise "list index out of range")
  | Some task =>
      let '(built, status, msg) :=
        match history with
        | Raise e =>
            (BrowserTaskResult_new agent_id task false None (Some e), "error", "Task failed: " +:+ e)
        | Ok h =>
            (result_of_history agent_id task h,
             if is_successful h then "result" else "error",
             if is_successful h
             then "Task completed successfully: " +:+ nl +:+ py_str (final_result h)
             else "Task failed: " +:+ (if has_errors h then errors h else "Unknown error"))
        end in
      match built with
      | Raise v => (state, Raise v)
      | Ok result =>
          match log_agent_activity (parallel_name task_id i) status msg state with
          | Ok state => (state, Ok result)
          | Raise e => (state, Raise e)
          end
      end
  end.

Fixpoint process_results (task_id : string) (pending_tasks : list TaskDescriptor) (i : nat)
    (histories : list (PyResult AgentHistory)) (results : list BrowserTaskResult.t)
    (state : VibeSurfState) : VibeSurfState * PyResult (list BrowserTaskResult.t) :=
  match histories with
  | [] => (state, Ok results)
  | history :: rest =>
      match parallel_result task_id pending_tasks i history state with
      | (state, Ok result) =>
          process_results task_id pending_tasks (S i) rest (results ++ [result]) state
      | (state, Raise e) => (state, Raise e)
      end
  end.

(** What the cleanup leaves: the agent object, the worker ids whose
    turn ran to its end, and the exception that left it, if any. *)
Record Cleaned : Type := mkCleaned {
  k_self : VibeSurfAgent;
  k_ids : list string;
  k_raised : option string
}.

(** The [finally] of lines 618-625, from task index [i] on: for a task
    that is not a list the handle is released, then the worker id is
    popped from the registry. No [try] surrounds the release: when it
    raises, the turn and the rest of the loop are left. *)
Fixpoint cleanup (script : nat → WorkerScript) (i : nat) (ids : list string)
    (pending_tasks : list TaskDescriptor) (self : VibeSurfAgent) : Cleaned :=
  match ids, pending_tasks with
  | agent_id :: ids, task :: pending_tasks =>
      match (if is_list task then Ok (browser_manager self)
             else unregister_agent (release (script i)) agent_id (browser_manager self)) with
      | Raise e => mkCleaned self [] (Some e)
      | Ok held =>
          let rest := cleanup script (S i) ids pending_tasks
                        (untrack agent_id (with_browser_manager held self)) in
          mkCleaned (k_self rest) (agent_id :: k_ids rest) (k_raised rest)
      end
  | _, _ => mkCleaned self [] None
  end.

(** The session each constructed worker is bound to,
    [agent_browser_sessions[i]]. *)
Definition parallel_bound (task_id : string) (agents : list (nat * BrowserUseAgent))
    : list (string * BrowserSession) :=
  (λ '(i, _), (parallel_agent_id task_id i, agent_browser_session (parallel_agent_id task_id i)))
    <$> agents.

(** Lines 508-625. With no task every loop is empty. Otherwise the
    first turn of the first loop reads [state.task_id] (line 518). The
    registration and the creation loop come before the [try]; an
    exception of the [finally] replaces what the [try] returned or
    raised. *)
Definition execute_parallel_browser_tasks (script : nat → WorkerScript) (order : list nat)
    (self : VibeSurfAgent) (state : VibeSurfState) : Dispatch :=
  let pending_tasks := browser_tasks state in
  match pending_tasks with
  | [] => mkDispatch self state parallel_mode [] [] (Ok [])
  | _ =>
      match getattr "task_id" task_id state with
      | Raise e => mkDispatch self state parallel_mode [] [] (Raise e)
      | Ok tid =>
          let ids := bu_agent_ids tid pending_tasks in
          let self :=
            with_browser_manager
              (browser_manager self ∪ list_to_set (registered_ids script tid (length pending_tasks)))
              self in
          match registration_error script (length pending_tasks) with
          | Some e => mkDispatch self state parallel_mode [] [] (Raise e)
          | None =>
              let c := create_agents script tid 0 pending_tasks [] self state in
              let bound := parallel_bound tid (c_agents c) in
              match c_raised c with
              | Some e => mkDispatch (c_self c) (c_state c) parallel_mode bound [] (Raise e)
              | None =>
                  let '(state, histories) := gather_runs tid order (c_agents c) (c_state c) in
                  let '(state, results) := process_results tid pending_tasks 0 histories [] state in
                  let k := cleanup script 0 ids pending_tasks (c_self c) in
                  mkDispatch (k_self k) state parallel_mode bound (k_ids k)
                    match k_raised k with
                    | Some e => Raise e
                    | None => results
                    end
              end
          end
      end
  end.

(** Lines 493-505. *)
Definition execute_tab_based_browser_tasks (script : nat → WorkerScript) (order : list nat)
    (self : VibeSurfAgent) (state : VibeSurfState) : Dispatch :=
  let task_count := length (browser_tasks state) in
  if bool_decide (task_count ≤ 1)%nat
  then execute_single_browser_tasks script self state
  else execute_parallel_browser_tasks script order self state.

(** ** The dispatch node (lines 391-442) and the report node (lines 452-490) *)

(** [str(task)] for the error results of lines 422-436. *)
Definition error_task_description (task : TaskDescriptor) : string :=
  match task with
  | TDict description _ => default "Unknown task" description
  | TList target_id description => "[" +:+ py_repr target_id +:+ ", " +:+ py_repr (Some description) +:+ "]"
  | TStr text => text
  end.

Definition error_results (e : string) (tasks : list TaskDescriptor) : list BrowserTaskResult.t :=
  (λ task, BrowserTaskResult.mk "error" (error_task_description task) false None (Some e)) <$> tasks.

(** The body of the [try] once the dispatcher has returned [results],
    lines 404-413. *)
Definition dispatch_done (results : list BrowserTaskResult.t) (state : VibeSurfState) : Block :=
  let state := set_browser_results (browser_results state ++ results) state in
  let state := set_current_step "vibesurf_agent" state in
  let successful_tasks := length (filter (λ r, BrowserTaskResult.success r = true) results) in
  exec (state, None)
    (log_agent_activity "browser_task_executor" "result"
       ("Browser execution completed: " +:+ pretty successful_tasks +:+ "/"
          +:+ pretty (length results) +:+ " tasks successful")).

(** The [except Exception as e] of lines 417-442. *)
Definition dispatch_failed (e : string) (state : VibeSurfState) : Block :=
  let state := set_browser_results (browser_results state ++ error_results e (browser_tasks state)) state in
  let state := set_current_step "vibesurf_agent" state in
  exec (state, None)
    (log_agent_activity "browser_task_executor" "error" ("Browser execution failed: " +:+ e)).

(** The log call of line 396 comes before the [try]. *)
Definition _browser_task_execution_node_impl (script : nat → WorkerScript) (order : list nat)
    (self : VibeSurfAgent) (state : VibeSurfState) : NodeResult :=
  match log_agent_activity "browser_task_executor" "working"
          ("Executing " +:+ pretty (length (browser_tasks state)) +:+ " browser tasks") state with
  | Raise e => mkNode self state (Some e)
  | Ok state =>
      let d := execute_tab_based_browser_tasks script order self state in
      let '(state, exn) :=
        match d_result d with
        | Ok results => dispatch_done results (d_state d)
        | Raise e => (d_state d, Some e)
        end in
      match exn with
      | None => mkNode (d_self d) state None
      | Some e =>
          let '(state, exn) := dispatch_failed e state in
          mkNode (d_self d) state exn
      end
  end.

(** The body of the [try], lines 459-481; [generate_report] is the
    summarizer capability and [report] is what it returns or raises. *)
Definition report_try (report : PyResult string) (state : VibeSurfState) : Block :=
  match collaborator "llm" state ≫= (λ _, report) with
  | Raise e => (state, Some e)
  | Ok report_path =>
      let state := set_generated_report_path (Some report_path) state in
      let state := set_current_step "vibesurf_agent" state in
      exec (state, None)
        (log_agent_activity "report_task_executor" "result"
           ("HTML report generated successfully at: `" +:+ report_path +:+ "`"))
  end.

(** The [except Exception as e] of lines 485-490. *)
Definition report_failed (e : string) (state : VibeSurfState) : Block :=
  let state := set_current_step "vibesurf_agent" state in
  exec (state, None)
    (log_agent_activity "report_task_executor" "error" ("Report generation failed: " +:+ e)).

(** The log call of line 457 comes before the [try]. *)
Definition _report_task_execution_node_impl (report : PyResult string)
    (self : VibeSurfAgent) (state : VibeSurfState) : NodeResult :=
  match log_agent_activity "report_task_executor" "working" "Generating HTML report" state with
  | Raise e => mkNode self state (Some e)
  | Ok state =>
      match report_try report state with
      | (state, None) => mkNode self state None
      | (state, Some e) =>
          let '(state, exn) := report_failed e state in
          mkNode self state exn
      end
  end.

(** ** The workflow graph (lines 751-793) and its run loop *)

Inductive Node : Type :=
| vibesurf_agent
| browser_task_execution
| report_task_execution.

(** What the collaborators and the controller do during one step of
    the graph. *)
Record StepScript : Type := {
  sleeps : list Sleep;
  planning : PlanningScript;
  workers : nat → WorkerScript;
  order : list nat;
  report : PyResult string
}.

(** The three wrapped nodes, lines 241-245, 384-388, 445-449. *)
Definition run_node (node : Node) (script : StepScript)
    (self : VibeSurfAgent) (state : VibeSurfState) : GateResult NodeResult :=
  match node with
  | vibesurf_agent =>
      control_aware_node (_vibesurf_agent_node_impl (planning script) self) state (sleeps script)
  | browser_task_execution =>
      control_aware_node (_browser_task_execution_node_impl (workers script) (order script) self)
        state (sleeps script)
  | report_task_execution =>
      control_aware_node (_report_task_execution_node_impl (report script) self) state (sleeps script)
  end.

(** The conditional edges: the router of the node, then the mapping
    given to [add_conditional_edges]; [None] is [END]. *)
Definition next_node (node : Node) (state : VibeSurfState) : option Node :=
  let target :=
    match node with
    | vibesurf_agent => route_after_vibesurf_agent state
    | browser_task_execution => route_after_browser_task_execution state
    | report_task_execution => route_after_report_task_execution state
    end in
  if bool_decide (target = "vibesurf_agent") then Some vibesurf_agent
  else if bool_decide (target = "browser_task_execution") then Some browser_task_execution
  else if bool_decide (target = "report_task_execution") then Some report_task_execution
  else None.

Inductive RunResult : Type :=
| Ended (self : VibeSurfAgent) (state : VibeSurfState)
| Aborted (self : VibeSurfAgent) (state : VibeSurfState) (e : string)
| Suspended (self : VibeSurfAgent) (state : VibeSurfState)
| Running (self : VibeSurfAgent) (state : VibeSurfState) (next : Node).

(** The agent object and the state a gated node leaves, and the
    exception that left it, if any. *)
Definition gate_outcome (self : VibeSurfAgent) (g : GateResult NodeResult)
    : VibeSurfAgent * VibeSurfState * option string :=
  match g with
  | Skipped state => (self, state, None)
  | StoppedWhilePaused state _ => (self, state, None)
  | StoppedBeforeNode state _ => (self, state, None)
  | Executed r _ => (node_self r, node_state r, node_raised r)
  | Cancelled state _ => (self, state, Some "CancelledError")
  | Waiting state _ => (self, state, None)
  end.

Definition is_waiting {R} (g : GateResult R) : bool :=
  match g with Waiting _ _ => true | _ => false end.

(** [app.ainvoke(initial_state)]: one script per step; a run whose
    scripts are used up before [END] is still going. *)
Fixpoint run_workflow (scripts : list StepScript) (node : Node)
    (self : VibeSurfAgent) (state : VibeSurfState) : RunResult :=
  match scripts with
  | [] => Running self state node
  | script :: rest =>
      let g := run_node node script self state in
      let '(self, state, exn) := gate_outcome self g in
      if is_waiting g then Suspended self state
      else
        match exn with
        | Some e => Aborted self state e
        | None =>
            match next_node node state with
            | None => Ended self state
            | Some node => run_workflow rest node self state
            end
        end
  end.

(** ** Operations of the system on a session in flight

    While a run is in flight the agent object's [_current_state] and
    the state the graph passes from node to node are one object;
    [attach] writes that state into the agent object for a control
    operation and [in_flight] reads it back. *)

Definition attach (self : VibeSurfAgent) (state : VibeSurfState) : VibeSurfAgent :=
  mkAgent (Some state) (_running_agents self) (agent_message_history self) (browser_manager self).

Definition in_flight (self : VibeSurfAgent) (state : VibeSurfState) : VibeSurfAgent * VibeSurfState :=
  (self, default state (_current_state self)).

Inductive Operation : Type :=
| GateStep (node : Node) (script : StepScript)       (* a gated workflow node *)
| NodeStep (node : Node) (script : StepScript)       (* the node function itself *)
| Stop (reason : option string)
| Pause (reason : option string)
| Resume (reason : option string)
| PauseAgent (agent_id : string) (reason : option string)
| ResumeAgent (agent_id : string) (reason : option string).

Definition node_impl (node : Node) (script : StepScript)
    (self : VibeSurfAgent) (state : VibeSurfState) : NodeResult :=
  match node with
  | vibesurf_agent => _vibesurf_agent_node_impl (planning script) self state
  | browser_task_execution =>
      _browser_task_execution_node_impl (workers script) (order script) self state
  | report_task_execution => _report_task_execution_node_impl (report script) self state
  end.

Definition perform (op : Operation) (self : VibeSurfAgent) (state : VibeSurfState)
    : VibeSurfAgent * VibeSurfState :=
  match op with
  | GateStep node script => (gate_outcome self (run_node node script self state)).1
  | NodeStep node script =>
      let r := node_impl node script self state in (node_self r, node_state r)
  | Stop reason => in_flight (stop (attach self state) reason).1 state
  | Pause reason => in_flight (pause (attach self state) reason).1 state
  | Resume reason => in_flight (resume (attach self state) reason).1 state
  | PauseAgent agent_id reason => let _ := pause_agent (attach self state) agent_id reason in (self, state)
  | ResumeAgent agent_id reason => let _ := resume_agent (attach self state) agent_id reason in (self, state)
  end.


(** ** Notions used in the statements *)

(** A state object as the dataclass constructor builds it: it holds the
    declared fields and nothing else. *)
Definition constructed (s : VibeSurfState) : Prop := undeclared s = None.

(** The state object after a caller has assigned the attributes on it:
    the given task id, an empty message history and an empty log. *)
Definition with_attributes (task_id : string) (s : VibeSurfState) : VibeSurfState :=
  set_undeclared (Some (mkAttributes task_id [] [])) s.

(** The state with the given entries appended to its activity log,
    when it has one. *)
Definition add_logs (entries : list ActivityEntry) (s : VibeSurfState) : VibeSurfState :=
  match undeclared s with
  | Some a =>
      set_undeclared
        (Some (mkAttributes (task_id a) (message_history a) (activity_logs a ++ entries))) s
  | None => s
  end.

(** The workers created for a run of the parallel path: those whose
    construction succeeds, each with the index of its task. *)
Definition created (script : nat → WorkerScript) (i n : nat) : list (nat * BrowserUseAgent) :=
  omap (λ k, match create (script k) with
             | Ok agent => Some (k, agent)
             | Raise _ => None
             end) (seq i n).

(** The entry of index [i] that goes with the [i]-th task: the text of
    its descriptor with the outcome of the worker run for it, a raised
    exception giving a failed entry with the exception text. *)
Definition expected_entry (i : nat) (text : string) (history : PyResult AgentHistory)
    : BrowserTaskResult.t :=
  match history with
  | Raise e => BrowserTaskResult.mk ("agent-" +:+ pretty (i + 1)) text false None (Some e)
  | Ok h =>
      BrowserTaskResult.mk ("agent-" +:+ pretty (i + 1)) text (is_successful h) (final_result h)
        (Some (if has_errors h && negb (is_successful h) then errors h else ""))
  end.

(** A step in which nothing intervenes at the gate, the browser context
    is read and the planner raises. *)
Definition planner_fails (script : StepScript) : Prop :=
  sleeps script = []
  ∧ raised (browser_context (planning script)) = false
  ∧ raised (ainvoke (planning script)) = true.

(** ** The final response: [_get_result] (lines 1427-1437) *)

Definition _get_result (state : VibeSurfState) : string :=
  match truthy (final_response state) with
  | Some response => response
  | None =>
      "# Task Execution Completed" +:+ nl +:+ nl +:+ "**Task:** " +:+ original_task state
        +:+ nl +:+ nl +:+ "Task execution completed but no detailed result available."
  end.

(** ** The tool layer: [vibe_surf/tools/vibesurf_tools.py] *)

(** *** The memory summary of [read_file] (lines 70-84)

    [lines] is [result.splitlines()]; lengths count characters. *)

Definition MAX_MEMORY_SIZE : nat := 1000.

(** The [for line in lines] loop with its [break]. *)
Fixpoint memory_display (lines : list string) (display : string) (lines_count : nat)
    : string * nat :=
  match lines with
  | [] => (display, lines_count)
  | line :: rest =>
      if bool_decide (String.length display + String.length line < MAX_MEMORY_SIZE)%nat
      then memory_display rest (display +:+ line +:+ nl) (S lines_count)
      else (display, lines_count)
  end.

Definition read_file_memory (result : string) (lines : list string) : string :=
  if bool_decide (MAX_MEMORY_SIZE < String.length result)%nat then
    let '(display, lines_count) := memory_display lines "" 0 in
    let remaining_lines := (length lines - lines_count)%nat in
    if bool_decide (0 < remaining_lines)%nat
    then display +:+ pretty remaining_lines +:+ " more lines..."
    else display
  else result.

(** *** Executing an action: [act] (lines 319-364) *)

(** What a registered action function hands back or raises. [VOther]
    is a value that is neither a [str], an [ActionResult] nor [None],
    with the texts of its type and of itself. A [BrowserError] carries
    what [handle_browser_error] makes of it. *)
Inductive ToolValue : Type :=
| VStr (s : string)
| VResult (r : ActionResult.t)
| VNone
| VOther (type_text value_text : string).

Inductive CallOutcome : Type :=
| Returns (v : ToolValue)
| RaisesBrowserError (handled : PyResult ActionResult.t)
| RaisesTimeout
| Raises (e : string).

(** A registered action: [param_model] validates the parameters (a
    failure has the texts of the exception's type and of the exception)
    and [function] is the call on validated parameters. Parameters are
    kept as their text. *)
Record RegisteredAction : Type := {
  param_model : string → option (string * string);
  function : string → CallOutcome
}.

(** The body of the [try] for one entry of the dumped action model. *)
Definition act_call (actions : gmap string RegisteredAction) (action_name params : string)
    : CallOutcome :=
  match actions !! action_name with
  | None => Raises ("Action " +:+ action_name +:+ " not found")
  | Some action =>
      match param_model action params with
      | Some (type_text, e) =>
          Raises ("Invalid parameters " +:+ params +:+ " for action " +:+ action_name
                    +:+ ": " +:+ type_text +:+ ": " +:+ e)
      | None => function action params
      end
  end.

(** The [except] clauses, then the test on the type of the result. *)
Definition act_entry (actions : gmap string RegisteredAction) (action_name params : string)
    : PyResult ActionResult.t :=
  result ← match act_call actions action_name params with
           | Returns v => Ok v
           | RaisesBrowserError handled => r ← handled; Ok (VResult r)
           | RaisesTimeout =>
               Ok (VResult (ActionResult.mk None
                              (Some (action_name +:+ " was not executed due to timeout."))))
           | Raises e => Ok (VResult (ActionResult.mk None (Some e)))
           end;
  match result with
  | VStr s => Ok (ActionResult.mk (Some s) None)
  | VResult r => Ok r
  | VNone => Ok (ActionResult.mk None None)
  | VOther type_text value_text =>
      Raise ("Invalid action result type: " +:+ type_text +:+ " of " +:+ value_text)
  end.

(** The loop over [action.model_dump(exclude_unset=True).items()]: the
    first entry whose parameters are not [None] decides; a dump without
    one falls off the loop, and line 364 returns an empty
    [ActionResult()]. *)
Fixpoint act (actions : gmap string RegisteredAction) (dump : list (string * option string))
    : PyResult ActionResult.t :=
  match dump with
  | [] => Ok (ActionResult.mk None None)
  | (_, None) :: rest => act actions rest
  | (action_name, Some params) :: _ => act_entry actions action_name params
  end.

(** *** Dropping the MCP tools: [unregister_mcp_clients] (lines 285-316) *)

Record VibeSurfTools : Type := mkTools {
  registry_actions : gmap string RegisteredAction;   (* self.registry.registry.actions *)
  mcp_clients : gmap string (PyResult unit)          (* each client by what disconnect() does *)
}.

Definition unregister_mcp_clients (self : VibeSurfTools) : VibeSurfTools :=
  let actions_to_remove :=
    filter (λ action_name, String.prefix "mcp." action_name = true)
      (map_to_list (registry_actions self)).*1 in
  mkTools (foldl (λ actions action_name, delete action_name actions)
             (registry_actions self) actions_to_remove)
          ∅.


(** ** Further notions used in the statements *)

(** The four control flags are all clear. *)
Definition flags_clear (s : VibeSurfState) : Prop :=
  stopped s = false ∧ paused s = false ∧ should_pause s = false ∧ should_stop s = false.

(** Everything in the state but the four control flags. *)
Definition session_data (s : VibeSurfState) :=
  (original_task s, upload_files s, session_id s, current_step s, is_complete s,
   current_action s, browser_tasks s, browser_results s, generated_report_path s,
   final_response s, undeclared s).

(** The three lists a session accumulates only grow from [s] to [s']:
    the task results of [s] are a prefix of those of [s'], and so are
    its activity log and its message history when the state object has
    them; a state object without them stays without them. *)
Definition grows (s s' : VibeSurfState) : Prop :=
  browser_results s `prefix_of` browser_results s'
  ∧ match undeclared s, undeclared s' with
    | Some a, Some a' =>
        activity_logs a `prefix_of` activity_logs a'
        ∧ message_history a `prefix_of` message_history a'
    | None, None => True
    | _, _ => False
    end.

(** The current step names one of the three nodes of the graph. *)
Definition known_step (s : VibeSurfState) : Prop :=
  current_step s = "vibesurf_agent"
  ∨ current_step s = "browser_task_execution"
  ∨ current_step s = "report_task_execution".

(** From [s] to [s'] the stop flag is kept, the three lists only grow,
    and a current step that names a node of the graph still names one. *)
Definition advances (s s' : VibeSurfState) : Prop :=
  stopped s' = stopped s ∧ grows s s' ∧ (known_step s → known_step s').

(** [s'] is [s] with entries appended to its activity log and nothing
    else changed. *)
Definition only_logs (s s' : VibeSurfState) : Prop :=
  ∃ entries, s' = add_logs entries s.

(** The three actions that route to another step or finish. *)
Definition is_routing (a : Action) : bool :=
  match a with
  | regular_action _ _ _ => false
  | _ => true
  end.

(** The entry the sequential path records for a text descriptor: the
    outcome of the worker's run, or a failed entry carrying the text of
    whatever raised, the construction of the worker or its run. *)
Definition single_entry (agent_id text : string) (script : WorkerScript) : BrowserTaskResult.t :=
  match create script ≫= run with
  | Raise e => BrowserTaskResult.mk agent_id text false None (Some e)
  | Ok h =>
      BrowserTaskResult.mk agent_id text (is_successful h) (final_result h)
        (Some (if has_errors h && negb (is_successful h) then errors h else ""))
  end.

Definition is_text (task : TaskDescriptor) : bool :=
  match task with TStr _ => true | _ => false end.

(** The text of the given lines, each followed by a newline. *)
Definition lines_text (lines : list string) : string :=
  foldr (λ line text, line +:+ nl +:+ text) "" lines.

(** An action call that [act] can turn into a result: it does not
    return a value of a foreign type, and a [BrowserError] it raises is
    one that [handle_browser_error] handles. *)
Definition well_behaved (o : CallOutcome) : Prop :=
  match o with
  | Returns (VOther _ _) => False
  | RaisesBrowserError (Raise _) => False
  | _ => True
  end.

(** * Scenarios *)

(** The state that [run] builds for a task. *)
Definition fresh_session : VibeSurfState :=
  initial_state "open example.com" [] "s-1".

(** The same state after a caller has assigned the attributes on it. *)
Definition supplied_session : VibeSurfState :=
  with_attributes "task-0001" fresh_session.

(** A session that is complete and neither stopped nor paused. *)
Definition completed_session : VibeSurfAgent :=
  mkAgent (Some (set_is_complete true fresh_session)) ∅ [] ∅.

(** A session paused by the operator, before the gate has run. *)
Definition pause_requested : VibeSurfState :=
  pause_state fresh_session.

(** A worker whose hooks raise, tracked under ["agent-1-0001"]. *)
Definition stubborn_worker : BrowserUseAgent :=
  {| pause_hook := Some (Raise "pause failed"); resume_hook := Some (Raise "resume failed");
     stop_hook := None; state_view := None; steps := [];
     run := Raise "not run" |}.

Definition one_worker_session : VibeSurfAgent :=
  mkAgent (Some fresh_session) {[ "agent-1-0001" := stubborn_worker ]} [] ∅.

(** A session that the operator has stopped. *)
Definition stopped_session : VibeSurfState :=
  stop_state fresh_session.

(** An agent object with no worker tracked and no handle held. *)
Definition idle_agent : VibeSurfAgent := mkAgent None ∅ [] ∅.

(** A session about to dispatch the given descriptors: the state as the
    program builds it, and the same with the attributes assigned. *)
Definition dispatching (tasks : list TaskDescriptor) : VibeSurfState :=
  set_browser_tasks tasks
    (set_current_step "browser_task_execution" (initial_state "compare two sites" [] "s-1")).

Definition supplied_dispatching (tasks : list TaskDescriptor) : VibeSurfState :=
  with_attributes "task-0001" (dispatching tasks).

(** A worker that finishes its task with the given text. *)
Definition diligent_worker (text : string) : BrowserUseAgent :=
  {| pause_hook := Some (Ok ()); resume_hook := Some (Ok ()); stop_hook := Some (Ok ());
     state_view := Some (Ok true); steps := [];
     run := Ok {| is_successful := true; final_result := Some text;
                  has_errors := false; errors := "[]" |} |}.

(** A worker whose run raises. *)
Definition failing_worker (e : string) : BrowserUseAgent :=
  {| pause_hook := None; resume_hook := None; stop_hook := None;
     state_view := None; steps := []; run := Raise e |}.

(** Every collaborator succeeds. *)
Definition all_succeed (i : nat) : WorkerScript :=
  {| focus := Ok (); register := Ok ();
     create := Ok (diligent_worker ("done " +:+ pretty i)); release := Ok () |}.

(** The worker of the first task cannot be constructed; the second
    runs to completion. *)
Definition first_not_created (i : nat) : WorkerScript :=
  match i with
  | 0 => {| focus := Ok (); register := Ok (); create := Raise "cannot start worker";
            release := Ok () |}
  | _ => {| focus := Ok (); register := Ok (); create := Ok (diligent_worker "example.org opened");
            release := Ok () |}
  end.

(** The registration of the second task fails. *)
Definition second_not_registered (i : nat) : WorkerScript :=
  match i with
  | 1 => {| focus := Ok (); register := Raise "no browser session";
            create := Ok (diligent_worker "unused"); release := Ok () |}
  | _ => all_succeed i
  end.

(** The run of the first worker raises; the second succeeds. *)
Definition first_run_raises (i : nat) : WorkerScript :=
  match i with
  | 0 => {| focus := Ok (); register := Ok (); create := Ok (failing_worker "boom");
            release := Ok () |}
  | _ => {| focus := Ok (); register := Ok (); create := Ok (diligent_worker "example.org opened");
            release := Ok () |}
  end.

(** The release of the first worker's handle fails. *)
Definition first_release_fails (i : nat) : WorkerScript :=
  match i with
  | 0 => {| focus := Ok (); register := Ok (); create := Ok (diligent_worker "example.com opened");
            release := Raise "session already closed" |}
  | _ => all_succeed i
  end.

Definition two_texts : list TaskDescriptor :=
  [TStr "open example.com"; TStr "open example.org"].

Definition two_dicts : list TaskDescriptor :=
  [TDict (Some "open example.com") None; TDict (Some "open example.org") None].

(** A planning step in which the planner raises. *)
Definition planner_raises (e : string) : StepScript :=
  {| sleeps := [];
     planning := {| browser_context := Ok ("", ""); ainvoke := Raise e |};
     workers := all_succeed; order := []; report := Ok "report.html" |}.

(** A planning step in which the planner answers with [task_done]. *)
Definition planner_finishes (response : string) : StepScript :=
  {| sleeps := [];
     planning := {| browser_context := Ok ("", "");
                    ainvoke := Ok {| thinking := None;
                                     action := [task_done (Some response) []];
                                     completion := "task_done" |} |};
     workers := all_succeed; order := []; report := Ok "report.html" |}.
(** * Properties *)

(** ** Status report *)

Lemma check_literal_worker_status cs :
  check_literal "AgentStatus" "status" (worker_status_of cs) = Ok (worker_status_of cs).
Proof.
  destruct cs as [s|]; simpl; [|reflexivity].
  destruct (stopped s); [reflexivity|]. destruct (paused s); reflexivity.
Qed.

Lemma build_agent_statuses_ok cs items acc :
  ∃ m, build_agent_statuses cs items acc = Ok m.
Proof.
  revert acc. induction items as [|[agent_id agent] items IH]; intros acc; simpl.
  - eauto.
  - unfold AgentStatus_new. rewrite check_literal_worker_status. simpl. apply IH.
Qed.

(** The report never raises: whatever the [try] does, a status comes
    back. *)
Lemma get_status_never_raises self :
  ∃ st, get_status self = Ok st.
Proof.
  unfold get_status. destruct (get_status_try self) as [st|e]; eauto.
Qed.

(** The overall status by the position of the session in the chain. *)
Lemma get_status_chain self st :
  get_status self = Ok st →
  match _current_state self with
  | None => VibeSurfStatus.overall_status st = "idle"
  | Some s =>
      if stopped s then VibeSurfStatus.overall_status st = "stopped"
      else if paused s || should_pause s then VibeSurfStatus.overall_status st = "paused"
      else if is_complete s then VibeSurfStatus.overall_status st = "error"
      else VibeSurfStatus.overall_status st = "running"
  end.
Proof.
  unfold get_status, get_status_try.
  destruct (build_agent_statuses_ok (_current_state self)
              (map_to_list (_running_agents self)) ∅) as [m ->].
  simpl. destruct (_current_state self) as [s|]; simpl.
  - destruct (stopped s); simpl; [intros [= <-]; reflexivity|].
    destruct (paused s || should_pause s); simpl; [intros [= <-]; reflexivity|].
    destruct (is_complete s); simpl; intros [= <-]; reflexivity.
  - intros [= <-]; reflexivity.
Qed.

(** C1. A session whose completion flag is set, and that is neither
    stopped nor paused, is reported by [get_status] with the overall
    status "error" carrying a validation failure: the chain picks
    "completed", which the [Literal] of [VibeSurfStatus.overall_status]
    does not list, and the [except] turns the failure into the error
    status. *)
Theorem get_status_completed_is_error :
  overall_status_of (_current_state completed_session) = "completed"
  ∧ get_status completed_session
    = Ok (VibeSurfStatus.mk "error" ∅
            [("error", PStr (validation_error "VibeSurfStatus" "overall_status"))] None).
Proof. split; vm_compute; reflexivity. Qed.

(** ** The gate *)

Lemma enter_pause_paused state :
  paused state || should_pause state = true → paused (enter_pause state) = true.
Proof.
  unfold enter_pause. destruct (paused state) eqn:Hp; simpl.
  - intros _. exact Hp.
  - intros ->. reflexivity.
Qed.

Lemma enter_pause_idem state :
  paused state = true → enter_pause state = state.
Proof. unfold enter_pause. intros ->. reflexivity. Qed.

(** A gate left waiting has gone through every sleep of the schedule
    and holds the session paused. *)
Lemma pause_loop_waiting schedule polls state waiting polls' :
  pause_loop schedule polls state = LoopWaiting waiting polls' →
  paused waiting = true ∧ polls' = polls + length schedule.
Proof.
  revert polls state. induction schedule as [|[ops|ops] rest IH]; intros polls state; simpl.
  - destruct (paused state || should_pause state) eqn:Hc; [|discriminate].
    intros [= <- <-]. split; [by apply enter_pause_paused | lia].
  - destruct (paused state || should_pause state); [|discriminate].
    destruct (stopped _ || should_stop _); [discriminate|].
    intros H. apply IH in H as [? ->]. split; [done | lia].
  - destruct (paused state || should_pause state); discriminate.
Qed.

(** Sleeps that come after the ones a waiting gate has used are met in
    the state the gate waits in. *)
Lemma pause_loop_resume pre more polls state waiting polls' :
  pause_loop pre polls state = LoopWaiting waiting polls' →
  pause_loop (pre ++ more) polls state = pause_loop more polls' waiting.
Proof.
  revert polls state. induction pre as [|[ops|ops] rest IH]; intros polls state; simpl.
  - destruct (paused state || should_pause state) eqn:Hc; [|discriminate].
    intros [= <- <-]. pose proof (enter_pause_paused _ Hc) as Hp.
    destruct more as [|sl more]; simpl; rewrite Hc, Hp; simpl;
      rewrite (enter_pause_idem _ Hp); reflexivity.
  - destruct (paused state || should_pause state); [|discriminate].
    destruct (stopped _ || should_stop _); [discriminate|]. apply IH.
  - destruct (paused state || should_pause state); discriminate.
Qed.

(** No control operation clears [stopped]. *)
Lemma apply_ctl_stopped state op :
  stopped state = true → stopped (apply_ctl state op) = true.
Proof. destruct op; simpl; auto. Qed.

Lemma during_stopped ops state :
  stopped state = true → stopped (during ops state) = true.
Proof.
  unfold during. revert state. induction ops as [|op ops IH]; intros state H; simpl; [done|].
  apply IH, apply_ctl_stopped, H.
Qed.

(** A [stop()] that lands during a sleep is visible when the sleep
    returns. *)
Lemma stop_lands_visible ops state :
  CtlStop ∈ ops → stopped (during ops state) = true.
Proof.
  unfold during. revert state. induction ops as [|op ops IH]; intros state Hin.
  - by apply elem_of_nil in Hin.
  - apply elem_of_cons in Hin as [<-|Hin]; simpl.
    + by apply (during_stopped ops).
    + by apply IH.
Qed.

(** C3. A gate that is waiting in its pause loop (after any number of
    polls [pre] that left it waiting in state [waiting]) and whose next
    sleep returns with a stop request visible ([stopped] or
    [should_stop]) ends at that very poll: it returns the state with
    [stopped] set and [should_stop] cleared, and the wrapped step is
    not executed, whatever the rest of the schedule. *)
Theorem stop_while_paused_observed {R} (node_func : VibeSurfState → R)
    (state waiting : VibeSurfState) (pre rest : list Sleep) (ops : list ControlOp) (polls : nat) :
  stopped state = false →
  pause_loop pre 0 state = LoopWaiting waiting polls →
  stopped (during ops waiting) || should_stop (during ops waiting) = true →
  ∃ state',
    control_aware_node node_func state (pre ++ Wake ops :: rest)
      = StoppedWhilePaused state' (S (length pre))
    ∧ state' = set_should_stop false (set_stopped true (during ops waiting))
    ∧ stopped state' = true ∧ should_stop state' = false.
Proof.
  intros Hrun Hwait Hstop.
  destruct (pause_loop_waiting _ _ _ _ _ Hwait) as [Hp ->].
  exists (set_should_stop false (set_stopped true (during ops waiting))).
  split; [|repeat split].
  unfold control_aware_node. rewrite Hrun.
  rewrite (pause_loop_resume _ _ _ _ _ _ Hwait). simpl.
  rewrite Hp. simpl. rewrite (enter_pause_idem _ Hp), Hstop. reflexivity.
Qed.

Lemma stop_while_paused_observed_witness :
  ∃ state',
    control_aware_node (λ s, s) pause_requested
      ([Wake []; Wake [CtlResume; CtlPause]] ++ Wake [CtlStop] :: [Wake []])
      = StoppedWhilePaused state' 3
    ∧ state' = set_should_stop false
                 (set_stopped true
                    (during [CtlStop] (set_should_pause false (set_paused true pause_requested))))
    ∧ stopped state' = true ∧ should_stop state' = false.
Proof.
  apply (stop_while_paused_observed (λ s, s) pause_requested
           (set_should_pause false (set_paused true pause_requested))
           [Wake []; Wake [CtlResume; CtlPause]] [Wake []] [CtlStop] 2).
  - reflexivity.
  - reflexivity.
  - reflexivity.
Defined.

(** ** Targeted control *)

(** C7. For an id that is not in the registry [pause_agent] and
    [resume_agent] return a result with [success = true]; for an id
    that is, an exception of the worker's hook comes back as a result
    with [success = false] carrying the exception text. The operations
    are total: they return a [ControlResult] in every case. *)
Theorem targeted_control_outcomes (self : VibeSurfAgent) (agent_id : string) (reason : option string) :
  (_running_agents self !! agent_id = None →
     ControlResult.success (pause_agent self agent_id reason) = true
     ∧ ControlResult.success (resume_agent self agent_id reason) = true)
  ∧ (∀ agent e,
       _running_agents self !! agent_id = Some agent →
       pause_hook agent = Some (Raise e) →
       pause_agent self agent_id reason
         = ControlResult.mk false ("Failed to pause agent " +:+ agent_id +:+ ": " +:+ e)
             [("agent_id", agent_id); ("error", e)])
  ∧ (∀ agent e,
       _running_agents self !! agent_id = Some agent →
       resume_hook agent = Some (Raise e) →
       resume_agent self agent_id reason
         = ControlResult.mk false ("Failed to resume agent " +:+ agent_id +:+ ": " +:+ e)
             [("agent_id", agent_id); ("error", e)]).
Proof.
  unfold pause_agent, resume_agent, call_agent_hook. split; [|split].
  - intros ->. split; reflexivity.
  - intros agent e -> ->. reflexivity.
  - intros agent e -> ->. reflexivity.
Qed.

Lemma targeted_control_outcomes_witness :
  (ControlResult.success (pause_agent one_worker_session "agent-9-0001" None) = true
   ∧ ControlResult.success (resume_agent one_worker_session "agent-9-0001" None) = true)
  ∧ ControlResult.success (pause_agent one_worker_session "agent-1-0001" None) = false
  ∧ ControlResult.success (resume_agent one_worker_session "agent-1-0001" None) = false.
Proof.
  split; [|split].
  - apply (targeted_control_outcomes one_worker_session "agent-9-0001" None).
    vm_compute. reflexivity.
  - rewrite (proj1 (proj2 (targeted_control_outcomes one_worker_session "agent-1-0001" None))
               stubborn_worker "pause failed"); [reflexivity | vm_compute; reflexivity | reflexivity].
  - rewrite (proj2 (proj2 (targeted_control_outcomes one_worker_session "agent-1-0001" None))
               stubborn_worker "resume failed"); [reflexivity | vm_compute; reflexivity | reflexivity].
Defined.


(** ** Reading and writing the undeclared attributes *)

Lemma getattr_constructed {A} name (read : Attributes → A) state :
  constructed state → getattr name read state = Raise (attribute_error name).
Proof. unfold constructed, getattr. by intros ->. Qed.

Lemma log_agent_activity_constructed name status msg state :
  constructed state →
  log_agent_activity name status msg state = Raise (attribute_error "activity_logs").
Proof. unfold constructed, log_agent_activity. by intros ->. Qed.

Lemma log_agent_activity_supplied name status msg state :
  is_Some (undeclared state) →
  log_agent_activity name status msg state
  = Ok (add_logs [{| agent_name := name; agent_status := status; agent_msg := msg |}] state).
Proof. unfold log_agent_activity, add_logs. by intros [a ->]. Qed.

Lemma log_agent_activity_Ok name status msg state state' :
  log_agent_activity name status msg state = Ok state' →
  is_Some (undeclared state)
  ∧ state' = add_logs [{| agent_name := name; agent_status := status; agent_msg := msg |}] state.
Proof.
  unfold log_agent_activity, add_logs.
  destruct (undeclared state) as [a|]; [|discriminate]. intros [= <-]. eauto.
Qed.

Lemma add_logs_nil state : add_logs [] state = state.
Proof.
  unfold add_logs. destruct state as [? ? ? ? ? ? ? ? ? ? ? ? ? ? [[tid msgs logs]|]]; simpl;
    [|reflexivity].
  unfold set_undeclared; simpl. by rewrite app_nil_r.
Qed.

Lemma add_logs_app l1 l2 state : add_logs l2 (add_logs l1 state) = add_logs (l1 ++ l2) state.
Proof.
  unfold add_logs. destruct (undeclared state) as [a|] eqn:Ha; simpl; [|by rewrite Ha].
  unfold set_undeclared; simpl. by rewrite app_assoc.
Qed.

Lemma undeclared_add_logs entries state :
  undeclared (add_logs entries state)
  = (λ a, mkAttributes (task_id a) (message_history a) (activity_logs a ++ entries))
      <$> undeclared state.
Proof. unfold add_logs. destruct (undeclared state) as [a|] eqn:Ha; simpl; by rewrite ?Ha. Qed.

Lemma only_logs_refl s : only_logs s s.
Proof. exists []. by rewrite add_logs_nil. Qed.

Lemma only_logs_trans s1 s2 s3 : only_logs s1 s2 → only_logs s2 s3 → only_logs s1 s3.
Proof. intros [l1 ->] [l2 ->]. exists (l1 ++ l2). apply add_logs_app. Qed.

Lemma only_logs_log name status msg s s' :
  log_agent_activity name status msg s = Ok s' → only_logs s s'.
Proof. intros [_ ->]%log_agent_activity_Ok. by eexists. Qed.

(** What a state keeps when entries are appended to its log. *)
Lemma only_logs_fields s s' :
  only_logs s s' →
  session_id s' = session_id s ∧ original_task s' = original_task s
  ∧ upload_files s' = upload_files s ∧ current_step s' = current_step s
  ∧ is_complete s' = is_complete s ∧ current_action s' = current_action s
  ∧ browser_tasks s' = browser_tasks s ∧ browser_results s' = browser_results s
  ∧ generated_report_path s' = generated_report_path s
  ∧ final_response s' = final_response s
  ∧ paused s' = paused s ∧ stopped s' = stopped s
  ∧ should_pause s' = should_pause s ∧ should_stop s' = should_stop s
  ∧ task_id <$> undeclared s' = task_id <$> undeclared s
  ∧ message_history <$> undeclared s' = message_history <$> undeclared s.
Proof.
  intros [l ->]. unfold add_logs. destruct (undeclared s) as [a|] eqn:Ha; simpl;
    rewrite ?Ha; repeat split; reflexivity.
Qed.

Lemma only_logs_supplied s s' : only_logs s s' → is_Some (undeclared s) → is_Some (undeclared s').
Proof. intros [l ->] [a Ha]. rewrite undeclared_add_logs, Ha. by eexists. Qed.

Lemma only_logs_constructed s s' : only_logs s s' → constructed s → s' = s.
Proof. unfold constructed. intros [l ->] Ha. unfold add_logs. by rewrite Ha. Qed.

Lemma only_logs_task_id s s' :
  only_logs s s' → getattr "task_id" task_id s' = getattr "task_id" task_id s.
Proof.
  intros [l ->]. unfold getattr. rewrite undeclared_add_logs.
  by destruct (undeclared s).
Qed.

(** ** What the dispatchers leave of the session state *)

Lemma log_steps_only_logs name agent state : only_logs state (log_steps name agent state).
Proof.
  unfold log_steps. revert state.
  induction (steps agent) as [|msg l IH]; intros state; simpl; [apply only_logs_refl|].
  eapply only_logs_trans; [|apply IH].
  destruct (log_agent_activity name "working" msg state) eqn:H;
    [by eapply only_logs_log | apply only_logs_refl].
Qed.

Lemma run_single_only_logs tid agent_id task agent state :
  only_logs state (run_single tid agent_id task agent state).1.
Proof.
  unfold run_single.
  destruct (run agent ≫= result_of_history agent_id task) as [r|e]; simpl;
    [|apply log_steps_only_logs].
  destruct (BrowserTaskResult.success r).
  - destruct (log_agent_activity _ _ _ _) eqn:H; simpl;
      [|apply log_steps_only_logs].
    eapply only_logs_trans; [apply log_steps_only_logs | by eapply only_logs_log].
  - destruct (log_agent_activity _ _ _ _) eqn:H; simpl;
      [|apply log_steps_only_logs].
    eapply only_logs_trans; [apply log_steps_only_logs | by eapply only_logs_log].
Qed.

Lemma single_attempt_only_logs script tid agent_id task self state :
  only_logs state (t_state (single_attempt script tid agent_id task self state)).
Proof.
  unfold single_attempt. destruct (create script) as [agent|e]; simpl.
  - pose proof (run_single_only_logs tid agent_id task agent state) as H.
    destruct (run_single tid agent_id task agent state) as [st [r|e]]; simpl in *; [exact H|].
    destruct (log_agent_activity _ _ _ st) eqn:Hl; simpl; [|exact H].
    eapply only_logs_trans; [exact H | by eapply only_logs_log].
  - destruct (log_agent_activity _ _ _ state) eqn:Hl; simpl; [|apply only_logs_refl].
    by eapply only_logs_log.
Qed.

Lemma single_turn_only_logs script i task self state :
  only_logs state (t_state (single_turn script i task self state)).
Proof.
  unfold single_turn. destruct (getattr "task_id" task_id state) as [tid|e]; simpl;
    [|apply only_logs_refl].
  destruct (log_agent_activity _ _ _ state) eqn:Hl; simpl; [|apply only_logs_refl].
  eapply only_logs_trans; [by eapply only_logs_log | apply single_attempt_only_logs].
Qed.

Lemma single_loop_only_logs script i tasks results bound cleaned self state :
  only_logs state (d_state (single_loop script i tasks results bound cleaned self state)).
Proof.
  revert i results bound cleaned self state.
  induction tasks as [|task tasks IH]; intros i results bound cleaned self state; simpl;
    [apply only_logs_refl|].
  destruct (_ ≫= _); [|apply only_logs_refl].
  pose proof (single_turn_only_logs (script i) i task self state) as H.
  destruct (t_result (single_turn (script i) i task self state)); simpl; [|exact H].
  eapply only_logs_trans; [exact H | apply IH].
Qed.

Lemma create_agents_only_logs script tid i tasks agents self state :
  only_logs state (c_state (create_agents script tid i tasks agents self state)).
Proof.
  revert i agents self state.
  induction tasks as [|task tasks IH]; intros i agents self state; simpl;
    [apply only_logs_refl|].
  destruct (log_agent_activity _ "working" _ state) as [st|e] eqn:Hl.
  - apply only_logs_log in Hl.
    destruct (create (script i)) as [agent|e].
    + eapply only_logs_trans; [exact Hl | apply IH].
    + destruct (log_agent_activity _ "error" _ st) as [st'|e'] eqn:Hl'; simpl; [|exact Hl].
      eapply only_logs_trans; [exact Hl|].
      eapply only_logs_trans; [by eapply only_logs_log | apply IH].
  - destruct (log_agent_activity _ "error" _ state) as [st'|e'] eqn:Hl'; simpl;
      [|apply only_logs_refl].
    eapply only_logs_trans; [by eapply only_logs_log | apply IH].
Qed.

Lemma gather_runs_only_logs tid order agents state :
  only_logs state (gather_runs tid order agents state).1.
Proof.
  unfold gather_runs; simpl. revert state.
  induction order as [|k order IH]; intros state; simpl; [apply only_logs_refl|].
  eapply only_logs_trans; [|apply IH].
  destruct (agents !! k) as [[i agent]|]; [apply log_steps_only_logs | apply only_logs_refl].
Qed.

Lemma parallel_result_only_logs tid pending i history state :
  only_logs state (parallel_result tid pending i history state).1.
Proof.
  unfold parallel_result. destruct (pending !! i) as [task|]; [|apply only_logs_refl].
  destruct history as [h|e].
  - destruct (result_of_history _ task h); [|apply only_logs_refl].
    destruct (log_agent_activity _ _ _ state) eqn:Hl; simpl; [|apply only_logs_refl].
    by eapply only_logs_log.
  - destruct (BrowserTaskResult_new _ task false None (Some e)); [|apply only_logs_refl].
    destruct (log_agent_activity _ _ _ state) eqn:Hl; simpl; [|apply only_logs_refl].
    by eapply only_logs_log.
Qed.

Lemma process_results_only_logs tid pending i histories results state :
  only_logs state (process_results tid pending i histories results state).1.
Proof.
  revert i results state.
  induction histories as [|h histories IH]; intros i results state; simpl;
    [apply only_logs_refl|].
  pose proof (parallel_result_only_logs tid pending i h state) as H.
  destruct (parallel_result tid pending i h state) as [st [r|e]]; simpl in *; [|exact H].
  eapply only_logs_trans; [exact H | apply IH].
Qed.

Lemma parallel_only_logs script order self state :
  only_logs state (d_state (execute_parallel_browser_tasks script order self state)).
Proof.
  unfold execute_parallel_browser_tasks.
  destruct (browser_tasks state) as [|task0 tasks0] eqn:Htasks; [apply only_logs_refl|].
  destruct (getattr "task_id" task_id state) as [tid|e]; [|apply only_logs_refl].
  destruct (registration_error script _); [apply only_logs_refl|].
  set (self0 := with_browser_manager _ self).
  pose proof (create_agents_only_logs script tid 0 (task0 :: tasks0) [] self0 state) as H1.
  destruct (create_agents script tid 0 (task0 :: tasks0) [] self0 state)
    as [agents self1 st1 [e|]]; cbn [c_agents c_self c_state c_raised d_state] in *;
    [exact H1|].
  pose proof (gather_runs_only_logs tid order agents st1) as H2.
  destruct (gather_runs tid order agents st1) as [st2 histories].
  pose proof (process_results_only_logs tid (task0 :: tasks0) 0 histories [] st2) as H3.
  destruct (process_results tid (task0 :: tasks0) 0 histories [] st2) as [st3 results].
  cbn [fst snd d_state] in *.
  eapply only_logs_trans; [exact H1|]. eapply only_logs_trans; [exact H2 | exact H3].
Qed.

Lemma tab_based_only_logs script order self state :
  only_logs state (d_state (execute_tab_based_browser_tasks script order self state)).
Proof.
  unfold execute_tab_based_browser_tasks, execute_single_browser_tasks.
  case_bool_decide; [apply single_loop_only_logs | apply parallel_only_logs].
Qed.

(** ** What every node keeps *)

Lemma grows_refl s : grows s s.
Proof. unfold grows. split; [done|]. by destruct (undeclared s). Qed.

Lemma grows_trans s1 s2 s3 : grows s1 s2 → grows s2 s3 → grows s1 s3.
Proof.
  unfold grows. intros [B1 H1] [B2 H2]. split; [by etrans|].
  destruct (undeclared s1), (undeclared s2), (undeclared s3); try done.
  destruct H1, H2. split; by etrans.
Qed.

Lemma grows_data s s' : session_data s' = session_data s → grows s s'.
Proof.
  unfold session_data, grows. intros H.
  assert (browser_results s' = browser_results s ∧ undeclared s' = undeclared s) as [-> ->]
    by (injection H; intros; split; assumption).
  split; [done|]. by destruct (undeclared s).
Qed.

Lemma advances_refl s : advances s s.
Proof. split; [done|]. split; [apply grows_refl | done]. Qed.

Lemma advances_trans s1 s2 s3 : advances s1 s2 → advances s2 s3 → advances s1 s3.
Proof.
  intros (S1 & G1 & K1) (S2 & G2 & K2). split; [congruence|].
  split; [by eapply grows_trans | auto].
Qed.

Lemma only_logs_advances s s' : only_logs s s' → advances s s'.
Proof.
  intros H. pose proof (only_logs_fields s s' H) as Hf.
  destruct Hf as (_ & _ & _ & Hstep & _ & _ & _ & Hres & _ & _ & _ & Hst & _ & _ & _ & Hm).
  split; [exact Hst|]. split.
  - unfold grows. rewrite Hres. split; [done|].
    destruct H as [l ->]. rewrite undeclared_add_logs.
    destruct (undeclared s) as [a|]; simpl; [|done].
    split; [by apply prefix_app_r | done].
  - unfold known_step. by rewrite Hstep.
Qed.

Lemma log_advances name status msg s s' :
  log_agent_activity name status msg s = Ok s' → advances s s'.
Proof. intros H. apply only_logs_advances. by eapply only_logs_log. Qed.

Lemma push_advances m s s' : push_message m s = Ok s' → advances s s'.
Proof.
  unfold push_message. destruct (undeclared s) as [a|] eqn:Ha; [|discriminate].
  intros [= <-]. split; [done|]. split; [|done].
  unfold grows. simpl. rewrite Ha. split; [done|]. split; [done | by apply prefix_app_r].
Qed.

Lemma exec_advances s0 (b : Block) stmt :
  (∀ s s', stmt s = Ok s' → advances s s') →
  advances s0 b.1 → advances s0 (exec b stmt).1.
Proof.
  intros Hstmt H. destruct b as [s [e|]]; simpl in *; [exact H|].
  destruct (stmt s) as [s'|e] eqn:Hs; simpl; [|exact H].
  eapply advances_trans; [exact H | by apply Hstmt].
Qed.

(** Goals [advances s t] where [t] is [s] under assignments of fields
    that are neither the stop flag nor one of the three lists, of a
    known step, or of the task results extended. *)
Ltac advances_fields :=
  solve [split; [reflexivity|]; split;
           [unfold grows; simpl; split;
              [first [reflexivity | apply prefix_app_r; reflexivity]
              | match goal with |- context [undeclared ?s] => destruct (undeclared s) end; done]
           | first [intros _; unfold known_step; simpl; tauto | done]]].

Lemma log_todo_advances todo state : advances state (log_todo todo state).
Proof.
  unfold log_todo. destruct (collaborator "file_system" state); simpl; [|apply advances_refl].
  destruct todo as [content|e]; simpl; [|apply advances_refl].
  destruct (log_agent_activity _ _ content state) eqn:H; [|apply advances_refl].
  by eapply log_advances.
Qed.

Lemma record_result_advances result state : advances state (record_result result state).1.
Proof.
  unfold record_result.
  set (b1 := match truthy (ActionResult.extracted_content result) with
             | Some _ => _ | None => _ end).
  assert (advances state b1.1) as H1.
  { unfold b1. destruct (truthy (ActionResult.extracted_content result)); [|apply advances_refl].
    apply exec_advances; [intros ? ?; apply log_advances|].
    apply exec_advances; [intros ? ?; apply push_advances|]. apply advances_refl. }
  destruct (truthy (ActionResult.error result)); [|exact H1].
  apply exec_advances; [intros ? ?; apply log_advances|].
  apply exec_advances; [intros ? ?; apply push_advances | exact H1].
Qed.

Lemma process_actions_advances actions state :
  advances state (process_actions actions state).1.
Proof.
  revert state. induction actions as [|a actions IH]; intros state; [apply advances_refl|].
  destruct a as [tasks| |response follow|name todo act].
  - cbn [process_actions]. apply exec_advances; [intros ? ?; apply log_advances|].
    cbn [fst]. advances_fields.
  - cbn [process_actions]. apply exec_advances; [intros ? ?; apply log_advances|].
    cbn [fst]. advances_fields.
  - cbn [process_actions]. apply exec_advances; [intros ? ?; apply log_advances|].
    cbn [fst]. advances_fields.
  - cbn [process_actions].
    set (st1 := if bool_decide (name ∈ todo_actions) then _ else state).
    assert (advances state st1) as H1.
    { unfold st1. destruct (bool_decide (name ∈ todo_actions));
        [apply log_todo_advances | apply advances_refl]. }
    destruct (collaborator "tools" st1 ≫= λ _, act) as [result|e]; [|exact H1].
    pose proof (record_result_advances result st1) as H2.
    destruct (record_result result st1) as [st2 [e|]]; simpl in *.
    + eapply advances_trans; [exact H1 | exact H2].
    + eapply advances_trans; [exact H1|]. eapply advances_trans; [exact H2 | apply IH].
Qed.

Lemma planning_failed_advances e state : advances state (planning_failed e state).1.
Proof.
  unfold planning_failed. apply exec_advances; [intros ? ?; apply log_advances|].
  cbn [fst]. advances_fields.
Qed.

Lemma planning_try_advances script state : advances state (planning_try script state).1.
Proof.
  unfold planning_try.
  destruct (collaborator "llm" state ≫= λ _, ainvoke script) as [parsed|e];
    [|apply advances_refl].
  set (b1 := exec (state, None) _).
  assert (advances state b1.1) as H1.
  { apply exec_advances; [intros ? ?; apply push_advances | apply advances_refl]. }
  set (b2 := match truthy (thinking parsed) with Some _ => _ | None => _ end).
  assert (advances state b2.1) as H2.
  { unfold b2. destruct (truthy (thinking parsed)); [|exact H1].
    apply exec_advances; [intros ? ?; apply log_advances | exact H1]. }
  destruct b2 as [st2 [e|]]; simpl in *; [exact H2|].
  eapply advances_trans; [exact H2 | apply process_actions_advances].
Qed.

Lemma planning_node_advances script self state :
  advances state (node_state (_vibesurf_agent_node_impl script self state)).
Proof.
  unfold _vibesurf_agent_node_impl.
  destruct (collaborator "tools" state ≫= λ _, browser_context script) as [[tabs active]|e];
    [|apply advances_refl].
  destruct (match context_info tabs active state with [] => Ok state | _ => _ end)
    as [st1|e] eqn:H1; [|apply advances_refl].
  assert (advances state st1) as A1.
  { destruct (context_info tabs active state);
      [injection H1 as <-; apply advances_refl | by eapply push_advances]. }
  pose proof (planning_try_advances script st1) as A2.
  destruct (planning_try script st1) as [st2 [e|]]; simpl in *.
  - pose proof (planning_failed_advances e st2) as A3.
    destruct (planning_failed e st2) as [st3 exn]; simpl in *.
    eauto using advances_trans.
  - eauto using advances_trans.
Qed.

Lemma dispatch_done_advances results state : advances state (dispatch_done results state).1.
Proof.
  unfold dispatch_done. apply exec_advances; [intros ? ?; apply log_advances|].
  cbn [fst]. advances_fields.
Qed.

Lemma dispatch_failed_advances e state : advances state (dispatch_failed e state).1.
Proof.
  unfold dispatch_failed. apply exec_advances; [intros ? ?; apply log_advances|].
  cbn [fst]. advances_fields.
Qed.

Lemma dispatch_node_advances script order self state :
  advances state (node_state (_browser_task_execution_node_impl script order self state)).
Proof.
  unfold _browser_task_execution_node_impl.
  destruct (log_agent_activity _ _ _ state) as [st0|e] eqn:H0; [|apply advances_refl].
  apply log_advances in H0.
  pose proof (only_logs_advances _ _ (tab_based_only_logs script order self st0)) as H1.
  set (d := execute_tab_based_browser_tasks script order self st0) in *.
  destruct (d_result d) as [results|e].
  - pose proof (dispatch_done_advances results (d_state d)) as H2.
    destruct (dispatch_done results (d_state d)) as [st2 [e|]]; simpl in *.
    + pose proof (dispatch_failed_advances e st2) as H3.
      destruct (dispatch_failed e st2) as [st3 exn]; simpl in *.
      eauto using advances_trans.
    + eauto using advances_trans.
  - pose proof (dispatch_failed_advances e (d_state d)) as H3.
    destruct (dispatch_failed e (d_state d)) as [st3 exn]; simpl in *.
    eauto using advances_trans.
Qed.

Lemma report_try_advances report state : advances state (report_try report state).1.
Proof.
  unfold report_try. destruct (collaborator "llm" state ≫= λ _, report) as [path|e];
    [|apply advances_refl].
  apply exec_advances; [intros ? ?; apply log_advances|]. cbn [fst]. advances_fields.
Qed.

Lemma report_failed_advances e state : advances state (report_failed e state).1.
Proof.
  unfold report_failed. apply exec_advances; [intros ? ?; apply log_advances|].
  cbn [fst]. advances_fields.
Qed.

Lemma report_node_advances report self state :
  advances state (node_state (_report_task_execution_node_impl report self state)).
Proof.
  unfold _report_task_execution_node_impl.
  destruct (log_agent_activity _ _ _ state) as [st0|e] eqn:H0; [|apply advances_refl].
  apply log_advances in H0.
  pose proof (report_try_advances report st0) as H1.
  destruct (report_try report st0) as [st1 [e|]]; simpl in *.
  - pose proof (report_failed_advances e st1) as H2.
    destruct (report_failed e st1) as [st2 exn]; simpl in *.
    eauto using advances_trans.
  - eauto using advances_trans.
Qed.

Lemma node_impl_advances node script self state :
  advances state (node_state (node_impl node script self state)).
Proof.
  destruct node; simpl;
    [apply planning_node_advances | apply dispatch_node_advances | apply report_node_advances].
Qed.

(** ** The stopped flag *)

(** C9. Every operation of the system keeps a set [stopped] flag set:
    a gated node, a node function, [stop], [pause], [resume],
    [pause_agent] and [resume_agent]. *)
Theorem stopped_is_monotonic (op : Operation) (self : VibeSurfAgent) (state : VibeSurfState) :
  stopped state = true →
  stopped (perform op self state).2 = true.
Proof.
  intros H. destruct op as [node script|node script|r|r|r|a r|a r]; simpl.
  - destruct node; simpl; unfold control_aware_node; rewrite H; exact H.
  - destruct (node_impl_advances node script self state) as [-> _]. exact H.
  - reflexivity.
  - exact H.
  - exact H.
  - exact H.
  - exact H.
Qed.

Lemma stopped_is_monotonic_witness :
  stopped stopped_session = true
  ∧ stopped (perform (Resume None) idle_agent stopped_session).2 = true.
Proof.
  split; [reflexivity|].
  apply (stopped_is_monotonic (Resume None) idle_agent stopped_session). reflexivity.
Defined.

(** ** A state as the program builds it

    On a state object that holds the declared fields and nothing else,
    each node function and each dispatcher given a task ends at its
    first read of an attribute that is not there. *)


Lemma dispatch_node_constructed script order self state :
  constructed state →
  _browser_task_execution_node_impl script order self state
  = mkNode self state (Some (attribute_error "activity_logs")).
Proof.
  intros H. unfold _browser_task_execution_node_impl.
  by rewrite (log_agent_activity_constructed _ _ _ _ H).
Qed.



Lemma parallel_constructed script order self state :
  constructed state →
  execute_parallel_browser_tasks script order self state
  = mkDispatch self state parallel_mode [] []
      match browser_tasks state with
      | [] => Ok []
      | _ => Raise (attribute_error "task_id")
      end.
Proof.
  intros H. unfold execute_parallel_browser_tasks.
  destruct (browser_tasks state) as [|task tasks]; [reflexivity|].
  by rewrite (getattr_constructed _ _ _ H).
Qed.

(** The gate lets the node run at once on a state whose flags are
    clear, whatever the schedule of sleeps. *)
Lemma gate_clear {R} (node_func : VibeSurfState → R) state schedule :
  flags_clear state →
  control_aware_node node_func state schedule = Executed (node_func state) 0.
Proof.
  intros (H1 & H2 & H3 & H4). unfold control_aware_node. rewrite H1.
  destruct schedule as [|sl schedule]; simpl; rewrite H2, H3; simpl; by rewrite H4.
Qed.

(** ** Choice of the dispatch path *)








Lemma create_agents_created script tid i tasks agents self state :
  is_Some (undeclared state) →
  c_agents (create_agents script tid i tasks agents self state)
  = agents ++ created script i (length tasks)
  ∧ c_raised (create_agents script tid i tasks agents self state) = None.
Proof.
  revert i agents self state.
  induction tasks as [|task tasks IH]; intros i agents self state Hs; simpl.
  - by rewrite app_nil_r.
  - rewrite log_agent_activity_supplied by done.
    assert (is_Some (undeclared (add_logs
              [{| agent_name := parallel_name tid i; agent_status := "working";
                  agent_msg := task_description task |}] state))) as Hs1
      by (eapply only_logs_supplied; [by eexists | done]).
    unfold created. simpl. destruct (create (script i)) as [agent|e].
    + destruct (IH (S i) (agents ++ [(i, agent)]) (track (parallel_agent_id tid i) agent self) _ Hs1)
        as [-> ->].
      by rewrite <- app_assoc.
    + rewrite log_agent_activity_supplied by done.
      apply IH. eapply only_logs_supplied; [by eexists | done].
Qed.

Lemma created_all script i n :
  (∀ k, (i ≤ k < i + n)%nat → raised (create (script k)) = false) →
  (created script i n).*1 = seq i n.
Proof.
  revert i. induction n as [|n IH]; intros i H; [done|].
  unfold created. simpl.
  pose proof (H i ltac:(lia)) as Hi.
  destruct (create (script i)) as [agent|e]; [|discriminate]. simpl.
  f_equal. apply IH. intros k Hk. apply H. lia.
Qed.

Lemma registration_error_none script n :
  (∀ k, (k < n)%nat → raised (register (script k)) = false) →
  registration_error script n = None.
Proof.
  intros H. unfold registration_error.
  destruct (list_find _ _) as [[j r]|] eqn:Hf; [|done]. simpl.
  apply list_find_Some in Hf as (Hj & Hr & _).
  apply list_lookup_fmap_Some in Hj as (k & -> & Hk).
  apply lookup_seq in Hk as [-> Hk]. simpl in Hr. rewrite H in Hr; [discriminate | done].
Qed.




(** C10. With no descriptor at all the dispatcher takes the sequential
    path, which returns the empty list without raising and changes
    nothing. The node around it does not get to call it on a state as
    the program builds it: its log call of line 396 raises before the
    [try], and the current step stays as it was. With the attributes
    assigned the node appends nothing to the task results, leaves the
    agent object as it was and sets the current step back to the
    planning node. *)
Theorem empty_dispatch (script : nat → WorkerScript) (order : list nat)
    (self : VibeSurfAgent) (state : VibeSurfState) :
  browser_tasks state = [] →
  execute_tab_based_browser_tasks script order self state
    = execute_single_browser_tasks script self state
  ∧ execute_single_browser_tasks script self state
    = mkDispatch self state single_mode [] [] (Ok [])
  ∧ (constructed state →
     _browser_task_execution_node_impl script order self state
     = mkNode self state (Some (attribute_error "activity_logs")))
  ∧ (is_Some (undeclared state) →
     node_raised (_browser_task_execution_node_impl script order self state) = None
     ∧ node_self (_browser_task_execution_node_impl script order self state) = self
     ∧ browser_results (node_state (_browser_task_execution_node_impl script order self state))
       = browser_results state
     ∧ current_step (node_state (_browser_task_execution_node_impl script order self state))
       = "vibesurf_agent").
Proof.
  intros Hn. split; [|split; [|split]].
  - unfold execute_tab_based_browser_tasks. rewrite Hn. reflexivity.
  - unfold execute_single_browser_tasks. rewrite Hn. reflexivity.
  - apply dispatch_node_constructed.
  - intros [a Ha]. unfold _browser_task_execution_node_impl.
    rewrite log_agent_activity_supplied by (rewrite Ha; eauto).
    unfold execute_tab_based_browser_tasks, execute_single_browser_tasks, add_logs.
    rewrite Ha. simpl. rewrite Hn. simpl. rewrite app_nil_r. done.
Qed.

Lemma empty_dispatch_witness :
  execute_tab_based_browser_tasks all_succeed [] idle_agent (dispatching [])
    = mkDispatch idle_agent (dispatching []) single_mode [] [] (Ok [])
  ∧ node_raised (_browser_task_execution_node_impl all_succeed [] idle_agent (dispatching []))
    = Some (attribute_error "activity_logs")
  ∧ current_step (node_state (_browser_task_execution_node_impl all_succeed [] idle_agent
                                (dispatching []))) = "browser_task_execution".
Proof.
  destruct (empty_dispatch all_succeed [] idle_agent (dispatching []) eq_refl)
    as (H1 & H2 & H3 & _).
  split; [by rewrite H1|]. rewrite (H3 eq_refl). split; reflexivity.
Defined.

(** ** Parallel dispatch *)

(** C2. On a state as the program builds it, a dispatch of two or more
    descriptors collects no task result at all. The dispatcher takes
    the parallel path, whose first statement in the first turn of its
    first loop (line 518) reads [state.task_id] and raises; the node
    around it does not even get that far, since its log call of line
    396 raises before the [try]. The task results of the session are
    what they were, whatever the collaborators would have done. *)
Theorem parallel_dispatch_collects_nothing (script : nat → WorkerScript) (order : list nat)
    (self : VibeSurfAgent) (state : VibeSurfState) :
  constructed state →
  (2 ≤ length (browser_tasks state))%nat →
  execute_tab_based_browser_tasks script order self state
    = mkDispatch self state parallel_mode [] [] (Raise (attribute_error "task_id"))
  ∧ _browser_task_execution_node_impl script order self state
    = mkNode self state (Some (attribute_error "activity_logs"))
  ∧ length (browser_results
              (node_state (_browser_task_execution_node_impl script order self state)))
    = length (browser_results state).
Proof.
  intros Hc Hn. split; [|split].
  - unfold execute_tab_based_browser_tasks. case_bool_decide; [lia|].
    rewrite (parallel_constructed _ _ _ _ Hc).
    destruct (browser_tasks state); [simpl in Hn; lia | done].
  - by apply dispatch_node_constructed.
  - by rewrite (dispatch_node_constructed _ _ _ _ Hc).
Qed.

Lemma parallel_dispatch_collects_nothing_witness :
  execute_tab_based_browser_tasks all_succeed [0%nat; 1%nat] idle_agent (dispatching two_texts)
    = mkDispatch idle_agent (dispatching two_texts) parallel_mode [] []
        (Raise (attribute_error "task_id"))
  ∧ browser_results (node_state (_browser_task_execution_node_impl all_succeed [0%nat; 1%nat]
                                   idle_agent (dispatching two_texts))) = [].
Proof.
  destruct (parallel_dispatch_collects_nothing all_succeed [0%nat; 1%nat] idle_agent
              (dispatching two_texts) eq_refl (le_n 2)) as (H1 & H2 & _).
  split; [exact H1|]. rewrite H2. reflexivity.
Defined.





(** *** With the attributes assigned

    What the parallel path does on a state object that holds the
    attributes it reads. *)

Lemma parallel_result_text tid pending i text history state :
  is_Some (undeclared state) →
  pending !! i = Some (TStr text) →
  (parallel_result tid pending i history state).2 = Ok (expected_entry i text history).
Proof.
  intros Hs Hi. unfold parallel_result. rewrite Hi.
  destruct history as [h|e]; simpl; by rewrite log_agent_activity_supplied.
Qed.

Lemma process_results_texts tid pending histories i results state :
  is_Some (undeclared state) →
  (∀ j, (j < length histories)%nat → ∃ text, pending !! (i + j)%nat = Some (TStr text)) →
  ∃ rs,
    (process_results tid pending i histories results state).2 = Ok (results ++ rs)
    ∧ length rs = length histories
    ∧ ∀ j h text, histories !! j = Some h → pending !! (i + j)%nat = Some (TStr text) →
                  rs !! j = Some (expected_entry (i + j) text h).
Proof.
  revert i results state.
  induction histories as [|h histories IH]; intros i results state Hs Hp; simpl.
  - exists []. rewrite app_nil_r. split; [done|]. split; [done|]. intros j h text Hj. done.
  - destruct (Hp 0%nat ltac:(simpl; lia)) as [text Ht]. rewrite Nat.add_0_r in Ht.
    pose proof (parallel_result_text tid pending i text h state Hs Ht) as Hr.
    pose proof (parallel_result_only_logs tid pending i h state) as Hl.
    destruct (parallel_result tid pending i h state) as [st r]. simpl in Hr, Hl. subst r.
    destruct (IH (S i) (results ++ [expected_entry i text h]) st) as (rs & Hrs & Hlen & Hall).
    { by eapply only_logs_supplied. }
    { intros j Hj. destruct (Hp (S j) ltac:(simpl; lia)) as [t Hj'].
      exists t. by replace (S i + j)%nat with (i + S j)%nat by lia. }
    exists (expected_entry i text h :: rs). split; [|split].
    + rewrite Hrs. by rewrite <- app_assoc.
    + simpl. by rewrite Hlen.
    + intros [|j] h' text' Hh Ht'; simpl in *.
      * rewrite Nat.add_0_r in *. by simplify_eq.
      * replace (i + S j)%nat with (S i + j)%nat in * by lia. by eapply Hall.
Qed.

Lemma created_lookup script i n j agent :
  (∀ k, (i ≤ k < i + n)%nat → raised (create (script k)) = false) →
  (j < n)%nat →
  create (script (i + j)%nat) = Ok agent →
  created script i n !! j = Some ((i + j)%nat, agent).
Proof.
  revert i j. induction n as [|n IH]; intros i j Hok Hj Hc; [lia|].
  unfold created. simpl.
  pose proof (Hok i ltac:(lia)) as Hi.
  destruct (create (script i)) as [a|e] eqn:Hci; [|discriminate].
  destruct j as [|j]; simpl.
  - rewrite Nat.add_0_r in *. congruence.
  - replace (i + S j)%nat with (S i + j)%nat in * by lia.
    apply IH; [|lia|done]. intros k Hk. apply Hok. lia.
Qed.

(** The [finally] when every release succeeds. *)
Lemma cleanup_all_released script i ids tasks self :
  (∀ k, (i ≤ k < i + length tasks)%nat → raised (release (script k)) = false) →
  k_raised (cleanup script i ids tasks self) = None.
Proof.
  revert i tasks self. induction ids as [|a ids IH]; intros i [|task tasks] self Hrel;
    simpl; try done.
  pose proof (Hrel i ltac:(simpl; lia)) as Hi.
  destruct (is_list task); simpl.
  - apply IH. intros k Hk. apply Hrel. simpl. lia.
  - unfold unregister_agent. destruct (release (script i)); [|discriminate]. simpl.
    apply IH. intros k Hk. apply Hrel. simpl. lia.
Qed.

(** With the attributes assigned, text descriptors, and every
    registration, construction and release succeeding, the results of
    the parallel path are in task order whatever the completion order,
    and a worker whose run raised has a failed entry with its text. *)
Lemma parallel_results_aligned script order self state texts :
  is_Some (undeclared state) →
  browser_tasks state = TStr <$> texts →
  (∀ k, (k < length texts)%nat →
        raised (register (script k)) = false ∧ raised (create (script k)) = false
        ∧ raised (release (script k)) = false) →
  ∃ rs,
    d_result (execute_parallel_browser_tasks script order self state) = Ok rs
    ∧ length rs = length texts
    ∧ ∀ i agent text, create (script i) = Ok agent → texts !! i = Some text →
                      rs !! i = Some (expected_entry i text (run agent)).
Proof.
  intros Hs Htasks Hok. unfold execute_parallel_browser_tasks.
  assert (length (browser_tasks state) = length texts) as Hlen
    by (by rewrite Htasks, length_fmap).
  destruct (browser_tasks state) as [|task0 tasks0] eqn:Hbt.
  { exists []. destruct texts; [|discriminate]. split; [done|]. split; [done|].
    intros i agent text _ Hi. done. }
  destruct Hs as [a Ha]. unfold getattr. rewrite Ha.
  rewrite registration_error_none; [|intros k Hk; apply Hok; lia].
  set (self0 := with_browser_manager _ self).
  destruct (create_agents_created script (task_id a) 0 (task0 :: tasks0) [] self0 state)
    as [Hc Hr]; [rewrite Ha; eauto|].
  pose proof (create_agents_only_logs script (task_id a) 0 (task0 :: tasks0) [] self0 state) as Hl1.
  set (c := create_agents script (task_id a) 0 (task0 :: tasks0) [] self0 state) in *.
  rewrite Hr. cbn [app] in Hc. cbn [length] in Hc, Hlen. rewrite Hlen in Hc.
  assert (∀ k, (0 ≤ k < 0 + length texts)%nat → raised (create (script k)) = false) as Hcr
    by (intros k Hk; apply Hok; lia).
  assert (length (c_agents c) = length texts) as Hcl.
  { rewrite Hc, <- (length_fmap fst), created_all by done. apply length_seq. }
  pose proof (gather_runs_only_logs (task_id a) order (c_agents c) (c_state c)) as Hl2.
  unfold gather_runs in *. cbn [fst] in Hl2.
  set (st2 := foldl _ (c_state c) order) in *.
  set (histories := (run ∘ snd) <$> c_agents c).
  destruct (process_results_texts (task_id a) (task0 :: tasks0) histories 0 [] st2)
    as (rs & Hrs & Hlrs & Hall).
  { eapply only_logs_supplied; [exact Hl2|]. eapply only_logs_supplied; [exact Hl1|].
    rewrite Ha. eauto. }
  { intros j Hj. unfold histories in Hj. rewrite length_fmap, Hcl in Hj.
    destruct (lookup_lt_is_Some_2 texts j Hj) as [t Ht].
    exists t. rewrite Htasks, list_lookup_fmap. simpl. by rewrite Ht. }
  destruct (process_results (task_id a) (task0 :: tasks0) 0 histories [] st2) as [st3 results].
  cbn [snd] in Hrs. subst results.
  rewrite cleanup_all_released; [|intros k Hk; apply Hok; simpl in *; lia].
  cbn [d_result]. simpl app. exists rs. split; [done|split].
  - rewrite Hlrs. unfold histories. by rewrite length_fmap.
  - intros i agent text Hcreate Htext.
    assert (i < length texts)%nat as Hi by (by eapply lookup_lt_Some).
    apply (Hall i (run agent) text).
    + unfold histories. rewrite list_lookup_fmap, Hc.
      rewrite (created_lookup script 0 (length texts) i agent Hcr Hi Hcreate). reflexivity.
    + simpl. rewrite Htasks, list_lookup_fmap. by rewrite Htext.
Qed.

(** With the attributes assigned, a worker that cannot be constructed
    shifts the results: the one entry carries the first descriptor's
    text with the second worker's outcome, since the result loop
    numbers the workers that were constructed, not the tasks. *)
Lemma supplied_results_misaligned :
  browser_results (node_state (_browser_task_execution_node_impl first_not_created [0%nat]
                                 idle_agent (supplied_dispatching two_texts)))
  = [BrowserTaskResult.mk "agent-1" "open example.com" true
       (Some "example.org opened") (Some "")].
Proof. vm_compute. reflexivity. Qed.

(** With the attributes assigned, a registration that fails leaves the
    dispatcher from the gather of line 531, before the [try]: the
    handle acquired for the other worker stays held. *)
Lemma supplied_registration_failure_leaks :
  d_result (execute_parallel_browser_tasks second_not_registered [] idle_agent
              (supplied_dispatching two_texts)) = Raise "no browser session"
  ∧ d_cleaned (execute_parallel_browser_tasks second_not_registered [] idle_agent
                 (supplied_dispatching two_texts)) = []
  ∧ elements (browser_manager
                (d_self (execute_parallel_browser_tasks second_not_registered [] idle_agent
                           (supplied_dispatching two_texts)))) = ["agent-1-0001"].
Proof. split; [|split]; vm_compute; reflexivity. Qed.

(** With the attributes assigned, a release that fails leaves the
    [finally] at once: the worker it was for and every worker after it
    stay in the registry, and their handles stay held. *)
Lemma supplied_release_failure_skips_the_rest :
  d_result (execute_parallel_browser_tasks first_release_fails [0%nat; 1%nat] idle_agent
              (supplied_dispatching two_texts)) = Raise "session already closed"
  ∧ d_cleaned (execute_parallel_browser_tasks first_release_fails [0%nat; 1%nat] idle_agent
                 (supplied_dispatching two_texts)) = []
  ∧ (map_to_list (_running_agents
                    (d_self (execute_parallel_browser_tasks first_release_fails [0%nat; 1%nat]
                               idle_agent (supplied_dispatching two_texts))))).*1
    = ["agent-1-0001"; "agent-2-0001"]
  ∧ elements (browser_manager
                (d_self (execute_parallel_browser_tasks first_release_fails [0%nat; 1%nat]
                           idle_agent (supplied_dispatching two_texts))))
    = ["agent-1-0001"; "agent-2-0001"].
Proof. split; [|split; [|split]]; vm_compute; reflexivity. Qed.

(** With the attributes assigned and dict descriptors, building a
    result with [task=pending_tasks[i]] raises the validation error of
    [BrowserTaskResult] out of the dispatcher; the node then records
    every task as failed with the validation text. *)
Lemma supplied_dict_results_lost :
  d_result (execute_parallel_browser_tasks first_run_raises [1%nat; 0%nat] idle_agent
              (supplied_dispatching two_dicts))
    = Raise (validation_error "BrowserTaskResult" "task")
  ∧ browser_results (node_state (_browser_task_execution_node_impl first_run_raises
                                   [1%nat; 0%nat] idle_agent (supplied_dispatching two_dicts)))
    = [BrowserTaskResult.mk "error" "open example.com" false None
         (Some (validation_error "BrowserTaskResult" "task"));
       BrowserTaskResult.mk "error" "open example.org" false None
         (Some (validation_error "BrowserTaskResult" "task"))].
Proof. split; vm_compute; reflexivity. Qed.

(** ** The planning step *)



(** *** With the attributes assigned *)

(** One planning step in which the planner raises, on a state that
    holds the attributes: the [except] catches the exception and the
    node returns, with the error recorded and the current step left as
    it was. *)
Lemma planning_failure_recorded script self state a e :
  undeclared state = Some a →
  raised (browser_context script) = false →
  ainvoke script = Raise e →
  ∃ state' a',
    _vibesurf_agent_node_impl script self state = mkNode self state' None
    ∧ undeclared state' = Some a'
    ∧ activity_logs a'
      = activity_logs a
        ++ [{| agent_name := "vibesurf_agent"; agent_status := "error";
               agent_msg := "Agent failed: " +:+ e |}]
    ∧ final_response state' = Some ("Task execution failed: " +:+ e)
    ∧ is_complete state' = true
    ∧ current_step state' = current_step state
    ∧ stopped state' = stopped state ∧ paused state' = paused state
    ∧ should_pause state' = should_pause state ∧ should_stop state' = should_stop state.
Proof.
  intros Ha Hctx Hllm. unfold _vibesurf_agent_node_impl, collaborator, getattr. rewrite Ha. simpl.
  destruct (browser_context script) as [[tabs active]|]; [|discriminate].
  destruct (context_info tabs active state) as [|line lines].
  - unfold planning_try, collaborator, getattr. rewrite Ha, Hllm. simpl.
    unfold planning_failed, log_agent_activity. simpl. rewrite Ha. simpl.
    eexists _, _. split; [reflexivity|]. simpl. repeat split; reflexivity.
  - unfold push_message. rewrite Ha.
    unfold planning_try, collaborator, getattr. simpl. rewrite Hllm. simpl.
    unfold planning_failed, log_agent_activity. simpl.
    eexists _, _. split; [reflexivity|]. simpl. repeat split; reflexivity.
Qed.

(** With the attributes assigned, however often the planner fails, the
    loop goes on: the router tests the current step before the
    completion flag, so each failure is followed by another planning
    step, and each step adds its error entry to the log. *)
Lemma planning_failure_never_ends scripts self state a :
  undeclared state = Some a →
  Forall planner_fails scripts →
  current_step state = "vibesurf_agent" →
  flags_clear state →
  ∃ state' a',
    run_workflow scripts vibesurf_agent self state = Running self state' vibesurf_agent
    ∧ undeclared state' = Some a'
    ∧ length (activity_logs a') = (length (activity_logs a) + length scripts)%nat.
Proof.
  intros Ha Hall. revert state a Ha.
  induction Hall as [|script scripts (Hs & Hctx & Hllm) _ IH];
    intros state a Ha Hstep Hf; simpl.
  - exists state, a. split; [done|]. split; [done | lia].
  - rewrite (gate_clear _ _ _ Hf).
    destruct (ainvoke (planning script)) as [|e] eqn:Hai; [discriminate|].
    destruct (planning_failure_recorded (planning script) self state a e Ha Hctx Hai)
      as (st & a1 & -> & Ha1 & Hlog & _ & _ & Hcs & H1 & H2 & H3 & H4).
    simpl. unfold next_node, route_after_vibesurf_agent. rewrite Hcs, Hstep. simpl.
    destruct (IH st a1 Ha1) as (state' & a' & Hrun & Ha' & Hlen).
    { congruence. }
    { destruct Hf as (F1 & F2 & F3 & F4). unfold flags_clear. by rewrite H1, H2, H3, H4. }
    exists state', a'. split; [exact Hrun|]. split; [exact Ha'|].
    rewrite Hlen, Hlog, length_app. simpl. lia.
Qed.
(** * Further properties *)

(** ** More on the gate *)

Lemma apply_ctl_data state op : session_data (apply_ctl state op) = session_data state.
Proof. destruct op; reflexivity. Qed.

Lemma during_data ops state : session_data (during ops state) = session_data state.
Proof.
  unfold during. revert state. induction ops as [|op ops IH]; intros state; simpl; [done|].
  by rewrite IH, apply_ctl_data.
Qed.

Lemma enter_pause_data state : session_data (enter_pause state) = session_data state.
Proof.
  unfold enter_pause. destruct (negb (paused state) && should_pause state); reflexivity.
Qed.

(** What each way out of the pause loop guarantees. *)
Lemma pause_loop_exit schedule polls state :
  match pause_loop schedule polls state with
  | LoopDone s p =>
      session_data s = session_data state ∧ paused s = false ∧ should_pause s = false
      ∧ (stopped state = false → stopped s = false)
      ∧ (polls ≤ p ≤ polls + length schedule)%nat
  | LoopStopped s p =>
      session_data s = session_data state ∧ stopped s = true ∧ should_stop s = false
      ∧ (polls < p ≤ polls + length schedule)%nat
  | LoopCancelled s p | LoopWaiting s p =>
      session_data s = session_data state ∧ (polls ≤ p ≤ polls + length schedule)%nat
  end.
Proof.
  revert polls state. induction schedule as [|[ops|ops] rest IH]; intros polls state; simpl.
  - destruct (paused state) eqn:Hp, (should_pause state) eqn:Hs; simpl;
      rewrite ?enter_pause_data; repeat split; auto; lia.
  - destruct (paused state || should_pause state) eqn:Hc.
    + destruct (stopped _ || should_stop _) eqn:Hst.
      * rewrite <- (enter_pause_data state), <- (during_data ops (enter_pause state)).
        repeat split; lia.
      * apply orb_false_iff in Hst as [Hst _].
        specialize (IH (S polls) (during ops (enter_pause state))).
        rewrite during_data, enter_pause_data in IH.
        destruct (pause_loop rest (S polls) (during ops (enter_pause state)));
          simpl in *; intuition lia.
    + apply orb_false_iff in Hc as [Hp Hs]. repeat split; auto; lia.
  - destruct (paused state || should_pause state) eqn:Hc.
    + rewrite during_data, enter_pause_data. split; [done | lia].
    + apply orb_false_iff in Hc as [Hp Hs]. repeat split; auto; lia.
Qed.

(** A property of the state that does not depend on the control flags
    and that the node keeps is kept by the gated node. *)
Lemma gate_outcome_preserves (P : VibeSurfState → Prop) (self : VibeSurfAgent)
    (f : VibeSurfState → NodeResult) (state : VibeSurfState) (schedule : list Sleep) :
  (∀ s s', session_data s' = session_data s → P s → P s') →
  (∀ s, P s → P (node_state (f s))) →
  P state →
  P (gate_outcome self (control_aware_node f state schedule)).1.2.
Proof.
  intros Hdata Hnode HP. unfold control_aware_node.
  destruct (stopped state); [exact HP|].
  pose proof (pause_loop_exit schedule 0 state) as H.
  destruct (pause_loop schedule 0 state) as [s p|s p|s p|s p]; simpl in *.
  - destruct H as (Hd & _). destruct (should_stop s); simpl.
    + eapply Hdata; [|exact HP]. exact Hd.
    + apply Hnode. eapply Hdata; [|exact HP]. exact Hd.
  - eapply Hdata; [|exact HP]. tauto.
  - eapply Hdata; [|exact HP]. tauto.
  - eapply Hdata; [|exact HP]. tauto.
Qed.

(** X1. When the gate runs the wrapped node, it runs it on a state
    whose four control flags are clear and whose other fields are those
    it was given; it has slept at most once per scheduled sleep. *)
Theorem gate_runs_node_on_clear_state {R} (node_func : VibeSurfState → R)
    (state : VibeSurfState) (schedule : list Sleep) (r : R) (polls : nat) :
  control_aware_node node_func state schedule = Executed r polls →
  ∃ s, r = node_func s ∧ flags_clear s ∧ session_data s = session_data state
       ∧ (polls ≤ length schedule)%nat.
Proof.
  unfold control_aware_node. destruct (stopped state) eqn:Hst; [discriminate|].
  pose proof (pause_loop_exit schedule 0 state) as H.
  destruct (pause_loop schedule 0 state) as [s p|s p|s p|s p]; try discriminate.
  destruct H as (Hd & Hp & Hsp & Hs & Hpolls).
  destruct (should_stop s) eqn:Hss; [discriminate|].
  intros [= <- <-]. exists s. unfold flags_clear. repeat split; auto; lia.
Qed.

Lemma gate_runs_node_on_clear_state_witness :
  ∃ s, "vibesurf_agent" = current_step s ∧ flags_clear s
       ∧ session_data s = session_data pause_requested
       ∧ (1 ≤ length [Wake [CtlResume]; Wake [CtlStop]])%nat.
Proof.
  apply (gate_runs_node_on_clear_state (λ st, current_step st) pause_requested
           [Wake [CtlResume]; Wake [CtlStop]] "vibesurf_agent" 1).
  reflexivity.
Defined.

(** X2. Whenever the gate does not run the node, the state it returns
    differs from the one it was given in the control flags at most. A
    stopped session is returned as it is; a stop observed at the gate,
    in the pause loop or after it, leaves [stopped] set and
    [should_stop] cleared. *)
Theorem gate_touches_flags_only {R} (node_func : VibeSurfState → R)
    (state : VibeSurfState) (schedule : list Sleep) :
  match control_aware_node node_func state schedule with
  | Skipped s => s = state ∧ stopped s = true
  | StoppedWhilePaused s p =>
      session_data s = session_data state ∧ stopped s = true ∧ should_stop s = false
      ∧ (0 < p ≤ length schedule)%nat
  | StoppedBeforeNode s p =>
      session_data s = session_data state ∧ stopped s = true ∧ should_stop s = false
      ∧ paused s = false ∧ should_pause s = false
  | Cancelled s p | Waiting s p => session_data s = session_data state
  | Executed _ _ => True
  end.
Proof.
  unfold control_aware_node. destruct (stopped state) eqn:Hst; [done|].
  pose proof (pause_loop_exit schedule 0 state) as H.
  destruct (pause_loop schedule 0 state) as [s p|s p|s p|s p]; simpl in *.
  - destruct (should_stop s) eqn:Hss; [|done]. intuition.
  - intuition lia.
  - intuition.
  - intuition.
Qed.

Lemma resume_clears_waiting waiting :
  stopped waiting = false → should_stop waiting = false →
  flags_clear (during [CtlResume] waiting).
Proof. intros H1 H2. unfold flags_clear. simpl. auto. Qed.

(** X3. A gate waiting in its pause loop whose next sleep returns with
    all four flags clear (the operator has resumed and not stopped)
    leaves the loop at that poll and runs the node on that state. *)
Theorem resume_releases_gate {R} (node_func : VibeSurfState → R)
    (state waiting : VibeSurfState) (pre rest : list Sleep) (ops : list ControlOp) (polls : nat) :
  stopped state = false →
  pause_loop pre 0 state = LoopWaiting waiting polls →
  flags_clear (during ops waiting) →
  control_aware_node node_func state (pre ++ Wake ops :: rest)
    = Executed (node_func (during ops waiting)) (S (length pre)).
Proof.
  intros Hrun Hwait (H1 & H2 & H3 & H4).
  destruct (pause_loop_waiting _ _ _ _ _ Hwait) as [Hp ->].
  unfold control_aware_node. rewrite Hrun.
  rewrite (pause_loop_resume _ _ _ _ _ _ Hwait). simpl.
  rewrite Hp. simpl. rewrite (enter_pause_idem _ Hp), H1, H4. simpl.
  destruct rest as [|sl rest]; simpl; rewrite H2, H3; simpl; rewrite H4; reflexivity.
Qed.

Lemma resume_releases_gate_witness :
  control_aware_node (λ st, current_step st) pause_requested ([Wake []] ++ Wake [CtlResume] :: [])
  = Executed "vibesurf_agent" 2.
Proof.
  apply (resume_releases_gate (λ st, current_step st) pause_requested
           (set_should_pause false (set_paused true pause_requested)) [Wake []] [] [CtlResume] 1).
  - reflexivity.
  - reflexivity.
  - apply resume_clears_waiting; reflexivity.
Defined.

(** ** Control operations and the status report together *)

Lemma stop_current_state self reason :
  _current_state (stop self reason).1 = stop_state <$> _current_state self.
Proof. reflexivity. Qed.

(** X4. What [get_status] reports right after a control operation on a
    session in flight: "stopped" after [stop], whatever the session was
    doing; "paused" after [pause] unless the session is stopped;
    "running" after [resume] for a session that is neither stopped nor
    complete. *)
Theorem status_after_control (self : VibeSurfAgent) (s : VibeSurfState) (reason : option string) :
  _current_state self = Some s →
  (∃ st, get_status (stop self reason).1 = Ok st
         ∧ VibeSurfStatus.overall_status st = "stopped")
  ∧ (stopped s = false →
     ∃ st, get_status (pause self reason).1 = Ok st
           ∧ VibeSurfStatus.overall_status st = "paused")
  ∧ (stopped s = false → is_complete s = false →
     ∃ st, get_status (resume self reason).1 = Ok st
           ∧ VibeSurfStatus.overall_status st = "running").
Proof.
  intros Hs. split; [|split].
  - destruct (get_status_never_raises (stop self reason).1) as [st Hst].
    exists st. split; [done|]. apply get_status_chain in Hst.
    simpl in Hst. rewrite Hs in Hst. exact Hst.
  - intros Hrun. destruct (get_status_never_raises (pause self reason).1) as [st Hst].
    exists st. split; [done|]. apply get_status_chain in Hst.
    simpl in Hst. rewrite Hs in Hst. simpl in Hst. rewrite Hrun in Hst.
    by rewrite orb_true_r in Hst.
  - intros Hrun Hc. destruct (get_status_never_raises (resume self reason).1) as [st Hst].
    exists st. split; [done|]. apply get_status_chain in Hst.
    simpl in Hst. rewrite Hs in Hst. simpl in Hst. by rewrite Hrun, Hc in Hst.
Qed.

Lemma status_after_control_witness :
  (∃ st, get_status (stop one_worker_session None).1 = Ok st
         ∧ VibeSurfStatus.overall_status st = "stopped")
  ∧ (∃ st, get_status (pause one_worker_session None).1 = Ok st
           ∧ VibeSurfStatus.overall_status st = "paused")
  ∧ (∃ st, get_status (resume one_worker_session None).1 = Ok st
           ∧ VibeSurfStatus.overall_status st = "running").
Proof.
  destruct (status_after_control one_worker_session fresh_session None eq_refl)
    as (H1 & H2 & H3).
  split; [exact H1 | split; [exact (H2 eq_refl) | exact (H3 eq_refl eq_refl)]].
Defined.

(** X5. On a session in flight that is not paused, [resume] leaves the
    session state as it is, and [pause] followed by [resume] gives the
    state back exactly. Neither touches the registry or the browser
    manager; each appends one message to the agent's history. *)
Theorem pause_then_resume_restores (self : VibeSurfAgent) (s : VibeSurfState)
    (r1 r2 : option string) :
  _current_state self = Some s →
  paused s = false → should_pause s = false →
  _current_state (resume self r2).1 = Some s
  ∧ _current_state (resume (pause self r1).1 r2).1 = Some s
  ∧ _running_agents (resume (pause self r1).1 r2).1 = _running_agents self
  ∧ browser_manager (resume (pause self r1).1 r2).1 = browser_manager self
  ∧ length (agent_message_history (resume (pause self r1).1 r2).1)
    = (length (agent_message_history self) + 2)%nat.
Proof.
  intros Hs Hp Hsp. simpl. rewrite Hs. simpl.
  assert (resume_state s = s) as Hr.
  { destruct s. simpl in *. subst. reflexivity. }
  assert (resume_state (pause_state s) = s) as Hpr.
  { destruct s. simpl in *. subst. reflexivity. }
  rewrite Hr, Hpr. repeat split; try done.
  rewrite !length_app. simpl. lia.
Qed.

Lemma pause_then_resume_restores_witness :
  _current_state (resume one_worker_session None).1 = Some fresh_session
  ∧ _current_state (resume (pause one_worker_session None).1 None).1 = Some fresh_session.
Proof.
  destruct (pause_then_resume_restores one_worker_session fresh_session None None
              eq_refl eq_refl eq_refl) as (H1 & H2 & _).
  split; [exact H1 | exact H2].
Defined.

(** ** Worker statuses *)





(** ** The session only ever appends *)

(** X7. The activity log, the message history and the task results of
    a session are append-only: whatever operation runs (a gated node, a
    node function, [stop], [pause], [resume], [pause_agent],
    [resume_agent]) and whatever the collaborators do, each of the
    three lists before the operation is a prefix of the list after it;
    a state object without a log and a history stays without them. *)
Theorem session_lists_append_only (op : Operation) (self : VibeSurfAgent) (state : VibeSurfState) :
  grows state (perform op self state).2.
Proof.
  destruct op as [node script|node script|r|r|r|a r|a r]; simpl;
    try (apply grows_data; reflexivity).
  - assert (∀ f : VibeSurfState → NodeResult,
              (∀ s, grows s (node_state (f s))) →
              grows state (gate_outcome self (control_aware_node f state (sleeps script))).1.2)
      as Hgate.
    { intros f Hf. apply (gate_outcome_preserves (grows state)).
      - intros s s' Hd Hs. eapply grows_trans; [exact Hs | by apply grows_data].
      - intros s Hs. eapply grows_trans; [exact Hs | apply Hf].
      - apply grows_refl. }
    destruct node; simpl; apply Hgate; intros s;
      [apply planning_node_advances | apply dispatch_node_advances | apply report_node_advances].
  - apply node_impl_advances.
Qed.

(** ** What the dispatchers and their nodes do to the session *)

(** X8. A dispatcher, sequential or parallel, changes nothing in the
    session state but the activity log, to which it only appends: the
    task list, the results so far, the current step and the control
    flags are as before, whatever the workers do. What it produces
    comes back solely as its return value. *)
Theorem dispatchers_only_log (script : nat → WorkerScript) (order : list nat)
    (self : VibeSurfAgent) (state : VibeSurfState) :
  only_logs state (d_state (execute_single_browser_tasks script self state))
  ∧ only_logs state (d_state (execute_parallel_browser_tasks script order self state))
  ∧ only_logs state (d_state (execute_tab_based_browser_tasks script order self state)).
Proof.
  split; [apply single_loop_only_logs | split; [apply parallel_only_logs|]].
  apply tab_based_only_logs.
Qed.




(** ** The planning step and the run loop *)

(** X10. The planning node stops at the first routing action
    ([execute_browser_use_agent_tasks], [execute_report_writer_agent]
    or [task_done]): the actions the planner listed after it are never
    executed and have no effect on the outcome. *)
Theorem routing_action_ends_step (pre rest : list Action) (a : Action) (state : VibeSurfState) :
  is_routing a = true →
  process_actions (pre ++ a :: rest) state = process_actions (pre ++ [a]) state.
Proof.
  intros Ha. revert state. induction pre as [|b pre IH]; intros state.
  - destruct a; try discriminate; reflexivity.
  - destruct b as [tasks| |response follow|name todo act]; try reflexivity.
    cbn [app process_actions].
    destruct (collaborator "tools" _ ≫= _) as [result|e]; [|reflexivity].
    destruct (record_result result _) as [st [e|]]; [reflexivity | apply IH].
Qed.

Lemma routing_action_ends_step_witness :
  process_actions ([regular_action "read_todos" (Ok "todo") (Ok (ActionResult.mk None None))]
                     ++ execute_report_writer_agent
                     :: [task_done (Some "never reached") []]) supplied_session
  = process_actions ([regular_action "read_todos" (Ok "todo") (Ok (ActionResult.mk None None))]
                       ++ [execute_report_writer_agent]) supplied_session.
Proof.
  apply (routing_action_ends_step
           [regular_action "read_todos" (Ok "todo") (Ok (ActionResult.mk None None))]
           [task_done (Some "never reached") []] execute_report_writer_agent supplied_session).
  reflexivity.
Defined.

(** X11. Once the session is stopped, the run loop changes nothing any
    more: whatever steps follow, every gate skips its node, and the
    agent object and the session state stay exactly as they were. The
    loop itself does not exit on that account: it goes on from node to
    node (or ends only if the router says so). *)
Theorem stopped_session_is_frozen (scripts : list StepScript) (node : Node)
    (self : VibeSurfAgent) (state : VibeSurfState) :
  stopped state = true →
  match run_workflow scripts node self state with
  | Running a s _ | Ended a s => a = self ∧ s = state
  | Aborted _ _ _ | Suspended _ _ => False
  end.
Proof.
  intros Hst. revert node. induction scripts as [|script scripts IH]; intros node; simpl; [done|].
  assert (run_node node script self state = Skipped state) as ->.
  { destruct node; simpl; unfold control_aware_node; by rewrite Hst. }
  simpl. destruct (next_node node state); [apply IH | done].
Qed.

Lemma stopped_session_is_frozen_witness :
  match run_workflow [planner_raises "boom"; planner_raises "boom"] vibesurf_agent
          one_worker_session stopped_session with
  | Running a s _ | Ended a s => a = one_worker_session ∧ s = stopped_session
  | Aborted _ _ _ | Suspended _ _ => False
  end.
Proof.
  apply (stopped_session_is_frozen [planner_raises "boom"; planner_raises "boom"] vibesurf_agent
           one_worker_session stopped_session).
  reflexivity.
Defined.

Lemma known_step_data s s' : session_data s' = session_data s → known_step s → known_step s'.
Proof.
  unfold session_data, known_step. intros H.
  assert (current_step s' = current_step s) as -> by (injection H; intros; assumption).
  done.
Qed.

Lemma next_node_known_step node state :
  known_step state → is_Some (next_node node state).
Proof.
  intros Hk. destruct node; simpl; [|by eexists..].
  unfold next_node, route_after_vibesurf_agent.
  destruct Hk as [H | [H | H]]; rewrite H; by eexists.
Qed.

(** X12. The graph never reaches [END] from a session whose current
    step names one of its three nodes, as every fresh session's does:
    the router after the planning step answers with the current step
    before it looks at the completion flag, and no node sets the step
    to anything but a node's name. A run can only stop by an exception,
    a cancellation or the step limit of the graph runtime. *)
Theorem workflow_never_reaches_end (scripts : list StepScript) (node : Node)
    (self : VibeSurfAgent) (state : VibeSurfState) :
  known_step state →
  ∀ a s, run_workflow scripts node self state ≠ Ended a s.
Proof.
  revert node self state.
  induction scripts as [|script scripts IH]; intros node self state Hk a s; simpl; [done|].
  assert (known_step (gate_outcome self (run_node node script self state)).1.2) as Hk'.
  { destruct node; simpl; apply (gate_outcome_preserves known_step); try done;
      try (intros s0 s0' Hd Hs0; by eapply known_step_data); intros s0 Hs0.
    - by apply planning_node_advances.
    - by apply dispatch_node_advances.
    - by apply report_node_advances. }
  destruct (gate_outcome self (run_node node script self state)) as [[self' state'] exn].
  simpl in Hk'.
  destruct (is_waiting _); [done|]. destruct exn; [done|].
  destruct (next_node_known_step node state' Hk') as [n ->]. by apply IH.
Qed.

Lemma workflow_never_reaches_end_witness :
  known_step supplied_session
  ∧ match run_workflow [planner_finishes "All done"] vibesurf_agent idle_agent
            supplied_session with
    | Ended _ _ => False
    | _ => True
    end.
Proof.
  split; [left; reflexivity|].
  destruct (run_workflow _ vibesurf_agent idle_agent supplied_session) as [a s| | |] eqn:H;
    try exact I.
  exact (workflow_never_reaches_end _ vibesurf_agent idle_agent supplied_session
           (or_introl eq_refl) a s H).
Defined.

(** ** More on the dispatchers *)

Lemma single_attempt_text script tid agent_id text self state :
  is_Some (undeclared state) →
  t_result (single_attempt script tid agent_id (TStr text) self state)
  = Ok (single_entry agent_id text script).
Proof.
  intros Hs. unfold single_attempt, single_entry.
  destruct (create script) as [agent|e]; simpl.
  - unfold run_single.
    assert (is_Some (undeclared (log_steps (single_name tid) agent state))) as Hs1
      by (eapply only_logs_supplied; [apply log_steps_only_logs | done]).
    destruct (run agent) as [h|e]; simpl.
    + destruct (is_successful h); rewrite log_agent_activity_supplied by done; reflexivity.
    + by rewrite log_agent_activity_supplied.
  - by rewrite log_agent_activity_supplied.
Qed.

Lemma single_turn_text script i text self state a :
  undeclared state = Some a →
  t_result (single_turn script i (TStr text) self state)
  = Ok (single_entry (single_agent_id (task_id a) i) text script).
Proof.
  intros Ha. unfold single_turn, getattr. rewrite Ha.
  rewrite log_agent_activity_supplied by (rewrite Ha; eauto).
  apply single_attempt_text. eapply only_logs_supplied; [by eexists | rewrite Ha; eauto].
Qed.

Lemma only_logs_attributes s s' a :
  only_logs s s' → undeclared s = Some a →
  ∃ a', undeclared s' = Some a' ∧ task_id a' = task_id a.
Proof.
  intros [l ->] Ha. rewrite undeclared_add_logs, Ha. simpl. by eexists.
Qed.

Lemma single_loop_texts script texts i results bound cleaned self state a :
  undeclared state = Some a →
  (∀ k, (i ≤ k < i + length texts)%nat → raised (focus (script k)) = false) →
  d_result (single_loop script i (TStr <$> texts) results bound cleaned self state)
  = Ok (results
        ++ imap (λ j text, single_entry (single_agent_id (task_id a) (i + j)) text
                             (script (i + j)%nat)) texts).
Proof.
  revert i results bound cleaned self state a.
  induction texts as [|text texts IH]; intros i results bound cleaned self state a Ha Hf; simpl.
  - by rewrite app_nil_r.
  - pose proof (Hf i ltac:(simpl; lia)) as Hi.
    unfold collaborator, getattr at 1. rewrite Ha. simpl.
    destruct (focus (script i)); [|discriminate]. simpl.
    rewrite (single_turn_text (script i) i text self state a Ha).
    destruct (only_logs_attributes _ _ a
                (single_turn_only_logs (script i) i (TStr text) self state) Ha)
      as (a' & Ha' & Htid).
    rewrite (IH (S i) _ _ _ _ _ a' Ha') by (intros k Hk; apply Hf; simpl; lia).
    rewrite <- app_assoc. simpl. rewrite Nat.add_0_r, Htid.
    do 3 f_equal.
    apply imap_ext. intros j x _. simpl.
    by replace (i + S j)%nat with (S (i + j))%nat by lia.
Qed.

(** X13. On a state that holds the attributes, the sequential path,
    given text descriptors and tab lookups that do not raise, returns
    exactly one entry per task, in task order, under the task's own
    worker id and text. A worker that cannot be constructed or whose
    run raises still gets its entry, marked failed with the exception
    text, and the tasks after it are still run. *)
Theorem single_results_one_per_task (script : nat → WorkerScript)
    (self : VibeSurfAgent) (state : VibeSurfState) (a : Attributes) (texts : list string) :
  undeclared state = Some a →
  browser_tasks state = TStr <$> texts →
  (∀ k, (k < length texts)%nat → raised (focus (script k)) = false) →
  d_result (execute_single_browser_tasks script self state)
  = Ok (imap (λ i text, single_entry (single_agent_id (task_id a) i) text (script i)) texts).
Proof.
  intros Ha Ht Hf. unfold execute_single_browser_tasks. rewrite Ht.
  rewrite (single_loop_texts _ _ _ _ _ _ _ _ a Ha) by (intros k Hk; apply Hf; lia). reflexivity.
Qed.

Lemma single_results_one_per_task_witness :
  d_result (execute_single_browser_tasks first_run_raises idle_agent
              (supplied_dispatching two_texts))
  = Ok [BrowserTaskResult.mk "agent-single-0001-0" "open example.com" false None (Some "boom");
        BrowserTaskResult.mk "agent-single-0001-1" "open example.org" true
          (Some "example.org opened") (Some "")].
Proof.
  rewrite (single_results_one_per_task first_run_raises idle_agent
             (supplied_dispatching two_texts) (mkAttributes "task-0001" [] [])
             ["open example.com"; "open example.org"]).
  - vm_compute. reflexivity.
  - reflexivity.
  - reflexivity.
  - intros [|[|k]] _; reflexivity.
Defined.

Lemma single_attempt_non_text script tid agent_id task self state :
  is_Some (undeclared state) →
  is_text task = false →
  t_result (single_attempt script tid agent_id task self state)
  = Raise (validation_error "BrowserTaskResult" "task").
Proof.
  intros Hs Ht. unfold single_attempt.
  assert (∀ success result error,
            BrowserTaskResult_new agent_id task success result error
            = Raise (validation_error "BrowserTaskResult" "task")) as Hnew
    by (intros; destruct task; try discriminate; reflexivity).
  destruct (create script) as [agent|e]; simpl.
  - unfold run_single.
    assert (is_Some (undeclared (log_steps (single_name tid) agent state))) as Hs1
      by (eapply only_logs_supplied; [apply log_steps_only_logs | done]).
    destruct (run agent) as [h|e]; simpl.
    + unfold result_of_history. rewrite Hnew. simpl.
      rewrite log_agent_activity_supplied by done. simpl. apply Hnew.
    + rewrite log_agent_activity_supplied by done. simpl. apply Hnew.
  - rewrite log_agent_activity_supplied by done. simpl. apply Hnew.
Qed.

(** X14. On a state that holds the attributes, when the first
    descriptor is not a text (a dict or a list), the sequential path
    raises the validation error of [BrowserTaskResult], whatever its
    worker did, also when it succeeded: the result is built with
    [task=task], and so is the failed entry of the [except]. *)
Theorem single_rejects_non_text (script : nat → WorkerScript)
    (self : VibeSurfAgent) (state : VibeSurfState) (task : TaskDescriptor)
    (rest : list TaskDescriptor) :
  is_Some (undeclared state) →
  browser_tasks state = task :: rest →
  is_text task = false →
  raised (focus (script 0%nat)) = false →
  d_result (execute_single_browser_tasks script self state)
  = Raise (validation_error "BrowserTaskResult" "task").
Proof.
  intros [a Ha] Ht Htext Hf. unfold execute_single_browser_tasks. rewrite Ht. simpl.
  unfold collaborator, getattr at 1. rewrite Ha. simpl.
  destruct (focus (script 0%nat)); [|discriminate]. simpl.
  assert (t_result (single_turn (script 0%nat) 0 task self state)
          = Raise (validation_error "BrowserTaskResult" "task")) as Hr.
  { unfold single_turn, getattr. rewrite Ha.
    rewrite log_agent_activity_supplied by (rewrite Ha; eauto).
    apply single_attempt_non_text; [|done].
    eapply only_logs_supplied; [by eexists | rewrite Ha; eauto]. }
  by rewrite Hr.
Qed.

Lemma single_rejects_non_text_witness :
  d_result (execute_single_browser_tasks all_succeed idle_agent
              (supplied_dispatching [TDict (Some "open example.com") None]))
  = Raise (validation_error "BrowserTaskResult" "task").
Proof.
  apply (single_rejects_non_text all_succeed idle_agent
           (supplied_dispatching [TDict (Some "open example.com") None])
           (TDict (Some "open example.com") None) []); try reflexivity.
  by eexists.
Defined.

(** ** What a dispatch leaves in the registry and the browser manager *)

Lemma agent_eq (a b : VibeSurfAgent) :
  _current_state a = _current_state b →
  _running_agents a = _running_agents b →
  agent_message_history a = agent_message_history b →
  browser_manager a = browser_manager b →
  a = b.
Proof. destruct a, b; simpl; by intros -> -> -> ->. Qed.

Lemma untrack_track agent_id agent self :
  _running_agents self !! agent_id = None →
  untrack agent_id (track agent_id agent self) = self.
Proof.
  intros H. apply agent_eq; try reflexivity. simpl. by apply delete_insert_id.
Qed.

Lemma single_attempt_self script tid agent_id task self state :
  _running_agents self !! agent_id = None →
  t_self (single_attempt script tid agent_id task self state) = self.
Proof.
  intros H. unfold single_attempt. destruct (create script) as [agent|e]; simpl.
  - destruct (run_single _ _ _ _ _) as [st [r|e]]; simpl; [by apply untrack_track|].
    destruct (log_agent_activity _ _ _ st); simpl; by apply untrack_track.
  - by destruct (log_agent_activity _ _ _ state).
Qed.

Lemma single_turn_self script i task self state :
  (∀ a, undeclared state = Some a →
        _running_agents self !! single_agent_id (task_id a) i = None) →
  t_self (single_turn script i task self state) = self.
Proof.
  intros H. unfold single_turn, getattr.
  destruct (undeclared state) as [a|] eqn:Ha; [|done].
  destruct (log_agent_activity _ _ _ state); [|done].
  apply single_attempt_self. by apply H.
Qed.

Lemma single_loop_self script i tasks results bound cleaned self state :
  (∀ a j, undeclared state = Some a →
          _running_agents self !! single_agent_id (task_id a) j = None) →
  d_self (single_loop script i tasks results bound cleaned self state) = self.
Proof.
  revert i results bound cleaned state.
  induction tasks as [|task tasks IH]; intros i results bound cleaned state Hfresh; simpl;
    [done|].
  destruct (_ ≫= _) as [?|?]; [|done].
  pose proof (single_turn_self (script i) i task self state (λ a, Hfresh a i)) as Hs.
  pose proof (single_turn_only_logs (script i) i task self state) as Hl.
  destruct (t_result (single_turn (script i) i task self state)); cbn [d_self]; [|done].
  rewrite Hs. apply IH. intros a' j Ha'.
  destruct Hl as [l Hl]. rewrite Hl, undeclared_add_logs in Ha'.
  destruct (undeclared state) as [attrs|] eqn:Ha; [|discriminate].
  injection Ha' as <-. simpl. by apply Hfresh.
Qed.

(** X15. The sequential path gives the agent object back as it found
    it, whatever the workers do and however it ends: each worker is
    tracked only while it runs, and the browser manager is not touched.
    (The worker ids of the dispatch are assumed free in the registry
    beforehand, as they are after [run] has cleared it.) *)
Theorem single_dispatch_leaves_no_trace (script : nat → WorkerScript)
    (self : VibeSurfAgent) (state : VibeSurfState) :
  (∀ a j, undeclared state = Some a →
          _running_agents self !! single_agent_id (task_id a) j = None) →
  d_self (execute_single_browser_tasks script self state) = self.
Proof. intros H. by apply single_loop_self. Qed.

Lemma single_dispatch_leaves_no_trace_witness :
  d_self (execute_single_browser_tasks first_run_raises one_worker_session
            (supplied_dispatching two_texts)) = one_worker_session.
Proof.
  apply (single_dispatch_leaves_no_trace first_run_raises one_worker_session
           (supplied_dispatching two_texts)).
  intros a j [= <-]. apply lookup_singleton_None.
  unfold single_agent_id. simpl. discriminate.
Defined.

Lemma create_agents_self script tid i tasks agents self state k :
  (∀ j, (i ≤ j < i + length tasks)%nat → parallel_agent_id tid j ≠ k) →
  let self' := c_self (create_agents script tid i tasks agents self state) in
  _current_state self' = _current_state self
  ∧ agent_message_history self' = agent_message_history self
  ∧ browser_manager self' = browser_manager self
  ∧ _running_agents self' !! k = _running_agents self !! k.
Proof.
  revert i agents self state.
  induction tasks as [|task tasks IH]; intros i agents self state Hk; simpl; [done|].
  assert (∀ j, (S i ≤ j < S i + length tasks)%nat → parallel_agent_id tid j ≠ k) as Hk'
    by (intros j Hj; apply Hk; simpl; lia).
  destruct (log_agent_activity _ "working" _ state) as [st|e].
  - destruct (create (script i)) as [agent|e].
    + destruct (IH (S i) (agents ++ [(i, agent)]) (track (parallel_agent_id tid i) agent self)
                  st Hk') as (H1 & H2 & H3 & H4).
      repeat split; try done. rewrite H4. simpl.
      apply lookup_insert_ne. apply (Hk i). simpl. lia.
    + destruct (log_agent_activity _ "error" _ st); [by apply IH | done].
  - destruct (log_agent_activity _ "error" _ state); [by apply IH | done].
Qed.

Lemma cleanup_fields script i ids tasks self :
  _current_state (k_self (cleanup script i ids tasks self)) = _current_state self
  ∧ agent_message_history (k_self (cleanup script i ids tasks self))
    = agent_message_history self.
Proof.
  revert i tasks self. induction ids as [|a ids IH]; intros i [|task tasks] self; simpl;
    try done.
  destruct (if is_list task then _ else _) as [held|e]; [|done]. cbn [k_self].
  by destruct (IH (S i) tasks (untrack a (with_browser_manager held self))) as [-> ->].
Qed.

Lemma cleanup_registry_other script i ids tasks self k :
  k ∉ ids →
  _running_agents (k_self (cleanup script i ids tasks self)) !! k = _running_agents self !! k.
Proof.
  revert i tasks self. induction ids as [|a ids IH]; intros i [|task tasks] self Hk; simpl;
    try done.
  apply not_elem_of_cons in Hk as [Hne Hk].
  destruct (if is_list task then _ else _) as [held|e]; [|done]. cbn [k_self].
  rewrite IH by done. simpl. by apply lookup_delete_ne.
Qed.

Lemma cleanup_keeps_untracked script i ids tasks self id :
  _running_agents self !! id = None →
  _running_agents (k_self (cleanup script i ids tasks self)) !! id = None.
Proof.
  revert i tasks self. induction ids as [|a ids IH]; intros i [|task tasks] self H; simpl;
    try done.
  destruct (if is_list task then _ else _) as [held|e]; [|done]. cbn [k_self].
  apply IH. simpl.
  destruct (decide (a = id)) as [->|Hne]; [apply lookup_delete_eq | by rewrite lookup_delete_ne].
Qed.

Lemma cleanup_untracks script i ids tasks self j id :
  (∀ k, (i ≤ k < i + length tasks)%nat → raised (release (script k)) = false) →
  length ids = length tasks →
  ids !! j = Some id →
  _running_agents (k_self (cleanup script i ids tasks self)) !! id = None.
Proof.
  revert i tasks self j.
  induction ids as [|a ids IH]; intros i [|task tasks] self j Hrel Hlen Hj; simpl in *; try done.
  pose proof (Hrel i ltac:(lia)) as Hi.
  assert (∃ held, (if is_list task then Ok (browser_manager self)
                   else unregister_agent (release (script i)) a (browser_manager self))
                  = Ok held) as [held ->].
  { destruct (is_list task); [by eexists|]. unfold unregister_agent.
    destruct (release (script i)); [by eexists | discriminate]. }
  cbn [k_self]. destruct j as [|j]; simpl in Hj.
  - simplify_eq. apply cleanup_keeps_untracked. simpl. apply lookup_delete_eq.
  - eapply IH; [|lia|exact Hj]. intros k Hk. apply Hrel. lia.
Qed.

Lemma cleanup_browser_manager script i ids tasks self x :
  (∀ k, (i ≤ k < i + length tasks)%nat → raised (release (script k)) = false) →
  length ids = length tasks →
  Forall (λ t, is_list t = false) tasks →
  x ∈ browser_manager (k_self (cleanup script i ids tasks self))
  ↔ x ∈ browser_manager self ∧ x ∉ ids.
Proof.
  revert i tasks self. induction ids as [|a ids IH]; intros i [|task tasks] self Hrel Hlen Hall;
    simpl in *; try done.
  - split; [intros H; split; [done | apply not_elem_of_nil] | tauto].
  - apply Forall_cons in Hall as [Ht Hall]. rewrite Ht.
    pose proof (Hrel i ltac:(lia)) as Hi. unfold unregister_agent.
    destruct (release (script i)); [|discriminate]. simpl.
    rewrite IH; [|intros k Hk; apply Hrel; lia|lia|done]. simpl.
    rewrite elem_of_difference, elem_of_singleton, not_elem_of_cons. tauto.
Qed.

Lemma registered_ids_all script tid n :
  (∀ k, (k < n)%nat → raised (register (script k)) = false) →
  registered_ids script tid n = parallel_agent_id tid <$> seq 0 n.
Proof.
  intros Hok. unfold registered_ids.
  assert (∀ i m, (∀ k, (i ≤ k < i + m)%nat → raised (register (script k)) = false) →
            omap (λ i, match register (script i) with
                       | Ok _ => Some (parallel_agent_id tid i)
                       | Raise _ => None
                       end) (seq i m)
            = parallel_agent_id tid <$> seq i m) as H.
  { intros i m. revert i. induction m as [|m IH]; intros i Hm; simpl; [done|].
    pose proof (Hm i ltac:(lia)) as Hi. destruct (register (script i)); [|discriminate].
    f_equal. apply IH. intros k Hk. apply Hm. lia. }
  apply H. intros k Hk. apply Hok. lia.
Qed.

(** X16. The parallel path, for descriptors that are not lists and when
    every registration and every release succeeds, gives the agent
    object back as it found it, whatever the workers do: the registry
    and the set of held handles are exactly what they were. (The worker
    ids of the dispatch are assumed free in both beforehand.) *)
Theorem parallel_dispatch_leaves_no_trace (script : nat → WorkerScript) (order : list nat)
    (self : VibeSurfAgent) (state : VibeSurfState) :
  (∀ k, (k < length (browser_tasks state))%nat →
        raised (register (script k)) = false ∧ raised (release (script k)) = false) →
  Forall (λ t, is_list t = false) (browser_tasks state) →
  (∀ a k, undeclared state = Some a → (k < length (browser_tasks state))%nat →
          _running_agents self !! parallel_agent_id (task_id a) k = None
          ∧ parallel_agent_id (task_id a) k ∉ browser_manager self) →
  d_self (execute_parallel_browser_tasks script order self state) = self.
Proof.
  intros Hok Hlist Hfresh. unfold execute_parallel_browser_tasks.
  destruct (browser_tasks state) as [|task0 tasks0] eqn:Htasks; [done|].
  unfold getattr. destruct (undeclared state) as [a|] eqn:Ha; [|done].
  set (tasks := task0 :: tasks0) in *. set (tid := task_id a).
  rewrite registration_error_none by (intros k Hk; by apply Hok).
  rewrite registered_ids_all by (intros k Hk; by apply Hok).
  set (self0 := with_browser_manager _ self).
  pose proof (create_agents_self script tid 0 tasks [] self0 state) as Hc.
  destruct (create_agents_created script tid 0 tasks [] self0 state) as [_ Hr];
    [rewrite Ha; eauto|].
  set (c := create_agents script tid 0 tasks [] self0 state) in *.
  rewrite Hr. cbv zeta in Hc.
  destruct (gather_runs tid order (c_agents c) (c_state c)) as [st2 histories].
  destruct (process_results tid tasks 0 histories [] st2) as [st3 results].
  cbn [d_self].
  assert (∀ k, (0 ≤ k < 0 + length tasks)%nat → raised (release (script k)) = false) as Hrel
    by (intros k Hk; apply Hok; lia).
  assert (length (bu_agent_ids tid tasks) = length tasks) as Hlen
    by (unfold bu_agent_ids; by rewrite length_imap).
  assert (∀ k, k ∈ bu_agent_ids tid tasks ↔
               ∃ j, (j < length tasks)%nat ∧ k = parallel_agent_id tid j) as Hids.
  { intros k. unfold bu_agent_ids. rewrite imap_seq_0, list_elem_of_fmap.
    split; intros (j & Hj & Hin); exists j.
    - apply elem_of_seq in Hin. split; [lia | done].
    - split; [done|]. apply elem_of_seq. lia. }
  destruct (cleanup_fields script 0 (bu_agent_ids tid tasks) tasks (c_self c)) as [Hcs Hh].
  apply agent_eq.
  - rewrite Hcs. destruct (Hc "") as (-> & _); [|done].
    intros j _. unfold parallel_agent_id. discriminate.
  - apply map_eq. intros k.
    destruct (decide (k ∈ bu_agent_ids tid tasks)) as [Hin|Hnin].
    + apply list_elem_of_lookup in Hin as [i Hi].
      rewrite (cleanup_untracks _ _ _ _ _ i k Hrel Hlen Hi).
      apply list_elem_of_lookup_2 in Hi. apply Hids in Hi as (j & Hj & ->).
      symmetry. by apply (Hfresh a j).
    + rewrite cleanup_registry_other by done.
      destruct (Hc k) as (_ & _ & _ & ->); [|done].
      intros j Hj Hk. subst k. apply Hnin, Hids. exists j. split; [lia | done].
  - rewrite Hh. destruct (Hc "") as (_ & -> & _); [|done].
    intros j _. unfold parallel_agent_id. discriminate.
  - apply leibniz_equiv. intros x.
    rewrite cleanup_browser_manager by done.
    destruct (Hc "") as (_ & _ & -> & _).
    { intros j _. unfold parallel_agent_id. discriminate. }
    unfold self0. cbn [browser_manager with_browser_manager].
    rewrite elem_of_union, elem_of_list_to_set. split.
    + intros [[Hx|Hx] Hn]; [done|]. exfalso. apply Hn. unfold bu_agent_ids.
      by rewrite imap_seq_0.
    + intros Hx. split; [by left|]. intros (j & Hj & ->)%Hids. by apply (Hfresh a j eq_refl Hj).
Qed.

Lemma parallel_dispatch_leaves_no_trace_witness :
  d_self (execute_parallel_browser_tasks first_run_raises [1%nat; 0%nat] idle_agent
            (supplied_dispatching two_dicts)) = idle_agent.
Proof.
  apply (parallel_dispatch_leaves_no_trace first_run_raises [1%nat; 0%nat] idle_agent
           (supplied_dispatching two_dicts)).
  - intros [|[|k]] _; split; reflexivity.
  - repeat constructor.
  - intros a k _ _. split; [apply lookup_empty | apply not_elem_of_empty].
Defined.

(** ** Worker ids *)

Lemma string_length_app (s t : string) :
  String.length (s +:+ t) = (String.length s + String.length t)%nat.
Proof. induction s as [|c s IH]; simpl; [done | by rewrite IH]. Qed.

Lemma string_app_inj_r (s1 s2 t : string) : s1 +:+ t = s2 +:+ t → s1 = s2.
Proof.
  revert s2. induction s1 as [|c s1 IH]; intros [|d s2] H.
  - done.
  - apply (f_equal String.length) in H. rewrite !string_length_app in H. simpl in H. lia.
  - apply (f_equal String.length) in H. rewrite !string_length_app in H. simpl in H. lia.
  - change (String c (s1 +:+ t) = String d (s2 +:+ t)) in H.
    injection H as -> H. f_equal. by apply IH.
Qed.

Lemma parallel_agent_id_inj tid i j :
  parallel_agent_id tid i = parallel_agent_id tid j → i = j.
Proof.
  unfold parallel_agent_id. intros H.
  apply (inj (String.app "agent-")) in H.
  apply string_app_inj_r in H.
  apply (inj pretty) in H. lia.
Qed.

(** X17. Within one dispatch no two workers share an id, whatever the
    task id of the session: the ids of the parallel path are pairwise
    distinct, and so are those of the sequential path. *)
Theorem worker_ids_are_unique (task_id : string) (pending_tasks : list TaskDescriptor) :
  NoDup (bu_agent_ids task_id pending_tasks)
  ∧ ∀ i j, single_agent_id task_id i = single_agent_id task_id j → i = j.
Proof.
  split.
  - unfold bu_agent_ids. rewrite imap_seq_0.
    apply NoDup_fmap_2_strong; [|apply NoDup_seq].
    intros i j _ _. apply parallel_agent_id_inj.
  - intros i j H. unfold single_agent_id in H.
    apply (inj (String.app "agent-single-")) in H.
    apply (inj (String.app (last4 task_id))) in H.
    apply (inj (String.app "-")) in H.
    by apply (inj pretty) in H.
Qed.

(** ** The final response *)

(** X18. The final response of a run is never the empty text: a
    missing or empty [final_response] is replaced by the standard
    completion text naming the task. After a planning failure it is the
    failure text with the exception in it, whatever the exception. *)
Theorem get_result_never_empty (state : VibeSurfState) (e : string) :
  _get_result state ≠ ""
  ∧ _get_result (planning_failed e state).1 = "Task execution failed: " +:+ e.
Proof.
  split.
  - unfold _get_result, truthy. destruct (final_response state) as [r|]; [|discriminate].
    case_bool_decide; [discriminate | done].
  - unfold planning_failed, exec, log_agent_activity. simpl.
    destruct (undeclared state); reflexivity.
Qed.

(** X19. The final response of a finished task lists at most three
    suggested follow-up tasks: what the planner suggests beyond the
    third is dropped. *)
Theorem task_done_keeps_three_suggestions (response : option string) (follow : list string)
    (rest : list Action) (state : VibeSurfState) :
  process_actions (task_done response follow :: rest) state
  = process_actions [task_done response (take 3 follow)] state.
Proof. destruct follow as [|a [|b [|c [|d follow]]]]; reflexivity. Qed.
(** ** The tool layer *)

Lemma string_app_assoc (a b c : string) : (a +:+ b) +:+ c = a +:+ (b +:+ c).
Proof.
  induction a as [|x a IH]; [done|].
  change (String x ((a +:+ b) +:+ c) = String x (a +:+ (b +:+ c))). by rewrite IH.
Qed.

Lemma string_app_nil_r (a : string) : a +:+ "" = a.
Proof.
  induction a as [|x a IH]; [done|].
  change (String x (a +:+ "") = String x a). by rewrite IH.
Qed.

Lemma memory_display_spec lines display lines_count :
  (String.length display ≤ MAX_MEMORY_SIZE)%nat →
  ∃ k, (k ≤ length lines)%nat
       ∧ memory_display lines display lines_count
         = (display +:+ lines_text (take k lines), (lines_count + k)%nat)
       ∧ (String.length (display +:+ lines_text (take k lines)) ≤ MAX_MEMORY_SIZE)%nat
       ∧ ∀ line, lines !! k = Some line →
           (MAX_MEMORY_SIZE
            ≤ String.length (display +:+ lines_text (take k lines)) + String.length line)%nat.
Proof.
  revert display lines_count.
  induction lines as [|line lines IH]; intros display lines_count Hd; simpl.
  - exists 0%nat. simpl. rewrite string_app_nil_r, Nat.add_0_r. repeat split; done.
  - case_bool_decide as Hfit.
    + destruct (IH (display +:+ line +:+ nl) (S lines_count)) as (k & Hk & -> & Hlen & Hnext).
      { rewrite !string_length_app. simpl. unfold MAX_MEMORY_SIZE in *. lia. }
      exists (S k). simpl. rewrite !string_app_assoc in *.
      repeat split; [lia | f_equal; lia | done | done].
    + exists 0%nat. simpl. rewrite string_app_nil_r, Nat.add_0_r.
      repeat split; [lia | done | ]. intros l [= <-]. lia.
Qed.

(** X20. The memory summary of [read_file]. A result of at most 1000
    characters is kept whole. A longer one is cut to its first [k]
    lines, whole lines only: the kept text never exceeds 1000
    characters, it stops at the first line that would not fit (so [k]
    may be 0), and it is followed by the count of lines left out when
    there are any. *)
Theorem read_file_memory_summary (result : string) (lines : list string) :
  ∃ k, (k ≤ length lines)%nat
       ∧ (String.length (lines_text (take k lines)) ≤ MAX_MEMORY_SIZE)%nat
       ∧ (∀ line, lines !! k = Some line →
            (MAX_MEMORY_SIZE ≤ String.length (lines_text (take k lines)) + String.length line)%nat)
       ∧ read_file_memory result lines
         = if bool_decide (MAX_MEMORY_SIZE < String.length result)%nat
           then if bool_decide (k < length lines)%nat
                then lines_text (take k lines) +:+ pretty (length lines - k)%nat
                       +:+ " more lines..."
                else lines_text (take k lines)
           else result.
Proof.
  destruct (memory_display_spec lines "" 0) as (k & Hk & Hm & Hlen & Hnext).
  { simpl. unfold MAX_MEMORY_SIZE. lia. }
  exists k. change ("" +:+ lines_text (take k lines)) with (lines_text (take k lines)) in *.
  repeat split; [done..|].
  unfold read_file_memory. rewrite Hm. simpl.
  case_bool_decide; [|done].
  repeat case_bool_decide; try done; lia.
Qed.

(** X21. [act] turns every failure of an action into an [ActionResult]
    that carries the error text instead of raising: an action name that
    is not registered, parameters that do not validate, an exception or
    a timeout of the action function. The entries after the first one
    with parameters are never looked at, and a dump in which no entry
    has parameters gives the empty [ActionResult()]. It raises only
    when the function returns a value of a foreign type or raises a
    [BrowserError] that [handle_browser_error] does not handle. *)
Theorem act_reports_failures (actions : gmap string RegisteredAction)
    (dump : list (string * option string)) :
  (Forall (λ entry, ∀ params, entry.2 = Some params →
                              well_behaved (act_call actions entry.1 params)) dump →
   ∃ r, act actions dump = Ok r)
  ∧ (∀ action_name params rest,
       actions !! action_name = None →
       act actions ((action_name, Some params) :: rest)
       = Ok (ActionResult.mk None (Some ("Action " +:+ action_name +:+ " not found"))))
  ∧ (∀ action_name params rest action type_text e,
       actions !! action_name = Some action →
       param_model action params = Some (type_text, e) →
       act actions ((action_name, Some params) :: rest)
       = Ok (ActionResult.mk None
               (Some ("Invalid parameters " +:+ params +:+ " for action " +:+ action_name
                        +:+ ": " +:+ type_text +:+ ": " +:+ e))))
  ∧ (∀ action_name params rest action,
       actions !! action_name = Some action →
       param_model action params = None →
       act actions ((action_name, Some params) :: rest)
       = match function action params with
         | Returns (VStr s) => Ok (ActionResult.mk (Some s) None)
         | Returns (VResult r) => Ok r
         | Returns VNone => Ok (ActionResult.mk None None)
         | Returns (VOther type_text value_text) =>
             Raise ("Invalid action result type: " +:+ type_text +:+ " of " +:+ value_text)
         | RaisesBrowserError (Ok r) => Ok r
         | RaisesBrowserError (Raise e) => Raise e
         | RaisesTimeout =>
             Ok (ActionResult.mk None (Some (action_name +:+ " was not executed due to timeout.")))
         | Raises e => Ok (ActionResult.mk None (Some e))
         end)
  ∧ (Forall (λ entry, entry.2 = None) dump →
     act actions dump = Ok (ActionResult.mk None None)).
Proof.
  split; [|split; [|split; [|split]]].
  - induction dump as [|[name [params|]] dump IH]; intros Hall; simpl.
    + by eexists.
    + apply Forall_cons in Hall as [H _]. specialize (H params eq_refl). simpl in H.
      unfold act_entry. destruct (act_call actions name params) as [[s|r|  |t v]|[r|e]| |e];
        simpl in *; try done; by eexists.
    + apply Forall_cons in Hall as [_ Hall]. by apply IH.
  - intros name params rest Hn. simpl. unfold act_entry, act_call. by rewrite Hn.
  - intros name params rest action ty e Hn Hv. simpl. unfold act_entry, act_call.
    by rewrite Hn, Hv.
  - intros name params rest action Hn Hv. simpl. unfold act_entry, act_call.
    rewrite Hn, Hv. destruct (function action params) as [[s|r|  |t v]|[r|e]| |e]; reflexivity.
  - induction dump as [|[name [params|]] dump IH]; intros Hall; simpl.
    + reflexivity.
    + apply Forall_cons in Hall as [H _]. discriminate H.
    + apply Forall_cons in Hall as [_ Hall]. by apply IH.
Qed.

Lemma act_reports_failures_witness :
  (∃ r, act ∅ [("read_file", None); ("click", Some "{'index': 3}")] = Ok r)
  ∧ act ∅ [("click", Some "{'index': 3}")]
    = Ok (ActionResult.mk None (Some "Action click not found"))
  ∧ act ∅ [("read_file", None); ("click", None)] = Ok (ActionResult.mk None None).
Proof.
  split; [|split].
  - apply (proj1 (act_reports_failures ∅ [("read_file", None); ("click", Some "{'index': 3}")])).
    apply Forall_cons; split; [intros params Hp; discriminate Hp|].
    apply Forall_cons; split; [|constructor].
    intros params _. exact I.
  - apply (proj1 (proj2 (act_reports_failures ∅ [])) "click" "{'index': 3}" []).
    apply lookup_empty.
  - apply (proj2 (proj2 (proj2 (proj2 (act_reports_failures ∅ [("read_file", None);
                                                                   ("click", None)]))))).
    repeat constructor.
Defined.

Lemma lookup_foldl_delete {A} (l : list string) (m : gmap string A) (k : string) :
  foldl (λ m' k', delete k' m') m l !! k = if decide (k ∈ l) then None else m !! k.
Proof.
  revert m. induction l as [|a l IH]; intros m.
  - destruct (decide (k ∈ [])) as [Hin|_]; [by apply elem_of_nil in Hin | done].
  - change (foldl (λ m' k', delete k' m') (delete a m) l !! k
            = if decide (k ∈ a :: l) then None else m !! k).
    rewrite IH. destruct (decide (k ∈ l)) as [Hin|Hnin], (decide (k ∈ a :: l)) as [Hin'|Hnin'].
    + done.
    + exfalso. apply Hnin'. by right.
    + apply elem_of_cons in Hin' as [->|?]; [apply lookup_delete_eq | done].
    + apply lookup_delete_ne. intros ->. apply Hnin'. by left.
Qed.

(** X22. [unregister_mcp_clients] removes from the registry exactly the
    actions whose name starts with ["mcp."]: every other action stays
    registered as it was, whatever the clients do on [disconnect], and
    no client is kept. *)
Theorem unregister_drops_mcp_only (self : VibeSurfTools) (action_name : string) :
  registry_actions (unregister_mcp_clients self) !! action_name
  = (if String.prefix "mcp." action_name then None
     else registry_actions self !! action_name)
  ∧ mcp_clients (unregister_mcp_clients self) = ∅.
Proof.
  split; [|reflexivity]. unfold unregister_mcp_clients. simpl.
  rewrite lookup_foldl_delete.
  destruct (String.prefix "mcp." action_name) eqn:Hp.
  - destruct (decide _) as [|Hnin]; [done|].
    destruct (registry_actions self !! action_name) as [a|] eqn:Hl; [|done].
    exfalso. apply Hnin. apply list_elem_of_filter. split; [done|].
    apply list_elem_of_fmap. exists (action_name, a). split; [done|].
    by apply elem_of_map_to_list.
  - destruct (decide _) as [Hin|]; [|done].
    apply list_elem_of_filter in Hin as [Hq _]. congruence.
Qed.
